(** * Time periods and condition trees of the scheduler core

    A shallow embedding of

    - [powerbase/core/time/base.py]: the time periods ([TimeInterval],
      [TimeDelta], [TimeCycle], [StaticInterval], [Offsetted] and the
      composites [All] and [Any]) with their roll operations, and
    - [rocketry/core/condition/base.py]: the condition tree ([All], [Any],
      [Not], [AlwaysTrue], [AlwaysFalse] and leaf conditions) with [observe].

    Instants are [pd.Timestamp] values, modelled by their nanosecond count
    (a [Z] inside the int64 range of pandas); [pd.Interval] is modelled with
    its [closed] attribute; Python exceptions are the [Raise] outcomes of an
    error monad. *)

From Stdlib Require Import ZArith List Bool Lia String.
Import ListNotations.

Set Implicit Arguments.
Set Warnings "-register-all".

(** ** Python exceptions and the error monad *)

Inductive exn : Set :=
| TypeError
| ValueError
| AttributeError
| NotImplementedError
| RecursionError
| OutOfBoundsDatetime.

Inductive Res (A : Type) : Type :=
| Ok (a : A)
| Raise (e : exn).

Arguments Ok {A} a.
Arguments Raise {A} e.

Definition bind {A B : Type} (m : Res A) (k : A -> Res B) : Res B :=
  match m with
  | Ok a => k a
  | Raise e => Raise e
  end.

Notation "x <- m ;; k" := (bind m (fun x => k))
  (at level 61, m at next level, right associativity).

(** A list comprehension whose element expression may raise: the elements are
    computed left to right and the first exception leaves the comprehension. *)
Fixpoint mapM {A B : Type} (f : A -> Res B) (l : list A) : Res (list B) :=
  match l with
  | [] => Ok []
  | a :: l' => b <- f a ;; bs <- mapM f l' ;; Ok (b :: bs)
  end.

(** Python's [max] and [min] over a list: [ValueError] on the empty list. *)
Definition py_max (l : list Z) : Res Z :=
  match l with
  | [] => Raise ValueError
  | x :: l' => Ok (fold_left Z.max l' x)
  end.

Definition py_min (l : list Z) : Res Z :=
  match l with
  | [] => Raise ValueError
  | x :: l' => Ok (fold_left Z.min l' x)
  end.

(** [itertools.combinations(l, 2)]: the pairs of positions [i < j], in order. *)
Fixpoint combinations2 {A : Type} (l : list A) : list (A * A) :=
  match l with
  | [] => []
  | a :: l' => map (pair a) l' ++ combinations2 l'
  end.

(** Values that are neither periods nor conditions. *)
Inductive pyvalue : Set :=
| PyNone
| PyInt (z : Z)
| PyStr (s : string).

Definition pyvalue_eqb (v w : pyvalue) : bool :=
  match v, w with
  | PyNone, PyNone => true
  | PyInt a, PyInt b => Z.eqb a b
  | PyStr a, PyStr b => String.eqb a b
  | _, _ => false
  end.

(** ** Time periods: [powerbase/core/time/base.py] *)

Module Period.

Open Scope Z_scope.

(** *** Timestamps, timedeltas and intervals of pandas *)

(** [pd.Timestamp.min] and [pd.Timestamp.max], in nanoseconds. *)
Definition Timestamp_min : Z := -9223372036854775807.
Definition Timestamp_max : Z := 9223372036854775807.

(** [TimePeriod.resolution = pd.Timestamp.resolution]: one nanosecond. *)
Definition resolution : Z := 1.

(** [datetime.datetime.resolution]: one microsecond. *)
Definition datetime_resolution : Z := 1000.

Definition in_bounds (t : Z) : bool :=
  (Timestamp_min <=? t) && (t <=? Timestamp_max).

(** A timedelta is a nanosecond count or [NaT] (not a time), here [None]. *)
Definition Timedelta : Set := option Z.
Definition NaT : Timedelta := None.

Definition isna (d : Timedelta) : bool :=
  match d with
  | None => true
  | Some _ => false
  end.

(** [abs(d)]: the magnitude of a finite timedelta; [NaT] has no absolute
    value and [abs] raises [TypeError] on it. *)
Definition Timedelta_abs (d : Timedelta) : Res Timedelta :=
  match d with
  | Some ns => Ok (Some (Z.abs ns))
  | None => Raise TypeError
  end.

(** [t + d] for a timestamp [t] and a finite timedelta [d]; pandas raises
    when the sum leaves the representable range. *)
Definition Timestamp_add (t d : Z) : Res Z :=
  if in_bounds (t + d) then Ok (t + d) else Raise OutOfBoundsDatetime.

Definition Timestamp_sub (t d : Z) : Res Z := Timestamp_add t (- d).

(** The same with a timedelta that may be [NaT]: the sum is then [NaT]. *)
Definition Timestamp_add_td (t : Z) (d : Timedelta) : Res (option Z) :=
  match d with
  | None => Ok None
  | Some d => r <- Timestamp_add t d ;; Ok (Some r)
  end.

Definition Timestamp_sub_td (t : Z) (d : Timedelta) : Res (option Z) :=
  Timestamp_add_td t (option_map Z.opp d).

(** Attribute access on a [pd.Timestamp]: it has neither [left] nor [right]
    (they are attributes of [pd.Interval]), so the lookup raises. *)
Definition Timestamp_getattr (t : Z) (name : string) : Res Z :=
  Raise AttributeError.

(** The [closed] attribute of [pd.Interval]; the constructor's default is
    ["right"]. *)
Inductive Closed : Set :=
| closed_right
| closed_left
| closed_both
| closed_neither.

Record Interval : Set := mkInterval { left : Z; right : Z; closed : Closed }.

Definition closed_left_side (i : Interval) : bool :=
  match closed i with
  | closed_left | closed_both => true
  | _ => false
  end.

Definition closed_right_side (i : Interval) : bool :=
  match closed i with
  | closed_right | closed_both => true
  | _ => false
  end.

(** [pd.Interval(left, right, closed)]: the end points must be timestamps
    (a [NaT] end point is refused) and ordered. *)
Definition Interval_new (c : Closed) (l r : option Z) : Res Interval :=
  match l, r with
  | Some l, Some r =>
      if r <? l then Raise ValueError else Ok (mkInterval l r c)
  | _, _ => Raise ValueError
  end.

(** [key in interval]. *)
Definition Interval_contains (i : Interval) (key : Z) : bool :=
  (if closed_left_side i then left i <=? key else left i <? key)
  && (if closed_right_side i then key <=? right i else key <? right i).

(** [a.overlaps(b)]: sharing an end point counts only when both sides that
    meet are closed. *)
Definition overlaps (a b : Interval) : bool :=
  (if closed_left_side a && closed_right_side b
   then left a <=? right b else left a <? right b)
  && (if closed_left_side b && closed_right_side a
      then left b <=? right a else left b <? right a).

Definition all_overlap (times : list Interval) : bool :=
  forallb (fun ab => overlaps (fst ab) (snd ab)) (combinations2 times).

Definition get_overlapping (times : list Interval) : Res Interval :=
  let starts := map left times in
  let ends := map right times in
  start <- py_max starts ;;
  end_ <- py_min ends ;;
  Interval_new closed_right (Some start) (Some end_).

(** [k * d] for an integer [k] and a finite timedelta [d]. *)
Definition Timedelta_mul (k d : Z) : Res Z :=
  if in_bounds (k * d) then Ok (k * d) else Raise OutOfBoundsDatetime.

(** [a <= b] where either side may be [NaT]: comparisons with [NaT] are
    false. *)
Definition le_nat (a b : option Z) : bool :=
  match a, b with
  | Some a, Some b => a <=? b
  | _, _ => false
  end.

(** *** The period classes

    One constructor per class; the fields are the instance attributes. The
    abstract methods of [TimeInterval] and [TimeCycle], which concrete
    subclasses supply, are function-valued fields. [reference] of a
    [TimeDelta] is the attribute a caller may set after construction
    ([None]: the attribute is absent). *)
Inductive Period : Type :=
| TimeInterval (rollstart next_end rollend prev_start : Z -> Z)
               (contains_ : Z -> bool)
| TimeDelta (past future : Timedelta) (reference : option Z)
| TimeCycle (start n offset : Z) (get_time_element replace : Z -> Z)
| All (periods : list Period)
| Any (periods : list Period)
| Offsetted (period : Period) (n : Z)
| StaticInterval (start end_ : Z).

(** Positional arguments of the composite constructors: any Python object. *)
Inductive arg : Type :=
| APeriod (p : Period)
| AValue (v : pyvalue).

Definition isinstance_TimePeriod (a : arg) : bool :=
  match a with
  | APeriod _ => true
  | AValue _ => false
  end.

Definition isinstance_TimeCycle (p : Period) : bool :=
  match p with
  | TimeCycle _ _ _ _ _ => true
  | _ => false
  end.

Definition the_periods (args : list arg) : list Period :=
  flat_map (fun a => match a with APeriod p => [p] | AValue _ => [] end) args.

(** *** Constructors *)

(** Calling the value of a [past]/[future] argument (an int, a string, a
    timedelta): such objects are not callable. *)
Definition call_value (v : Timedelta) (message : string) : Res exn :=
  Raise TypeError.

(** [TimeDelta.__init__(past, future)]. An argument is [None] or a value
    that [pd.Timedelta] converts to the given timedelta. [abs] is taken of
    both converted durations before the guards, and raises on [NaT]. *)
Definition TimeDelta_init (past future : option Timedelta) : Res Period :=
  let past := match past with None => Some 0 | Some d => d end in
  let future := match future with None => Some 0 | Some d => d end in
  self_past <- Timedelta_abs past ;;
  self_future <- Timedelta_abs future ;;
  if isna self_past then
    e <- call_value future "TimeDelta past duration cannot be 'not a time'" ;;
    Raise e
  else if isna self_past then
    Raise ValueError
  else Ok (TimeDelta self_past self_future None).

(** [All.__init__] and [Any.__init__], called with the positional
    arguments [args]. *)
Definition All_init (args : list arg) : Res Period :=
  if existsb (fun a => negb (isinstance_TimePeriod a)) args
  then Raise TypeError
  else Ok (All (the_periods args)).

Definition Any_init (args : list arg) : Res Period :=
  if existsb (fun a => negb (isinstance_TimePeriod a)) args
  then Raise TypeError
  else Ok (Any (the_periods args)).

Definition Offsetted_init (period : Period) (n : Z) : Res Period :=
  if isinstance_TimeCycle period then Raise NotImplementedError
  else Ok (Offsetted period n).

Definition StaticInterval_init (start end_ : option Z) : Period :=
  StaticInterval
    (match start with Some s => s | None => Timestamp_min end)
    (match end_ with Some e => e | None => Timestamp_max end).

(** *** Roll operations of the leaf classes *)

Definition TimeInterval_rollforward (rollstart next_end : Z -> Z) (dt : Z)
  : Res Interval :=
  let start := rollstart dt in
  let end_ := next_end dt in
  Interval_new closed_both (Some start) (Some end_).

Definition TimeInterval_rollback (rollend prev_start : Z -> Z) (dt : Z)
  : Res Interval :=
  let end_ := rollend dt in
  let start := prev_start dt in
  Interval_new closed_both (Some start) (Some end_).

Definition TimeDelta_rollback (past : Timedelta) (dt : Z) : Res Interval :=
  span <- Timedelta_abs past ;;
  start <- Timestamp_sub_td dt span ;;
  Interval_new closed_right start (Some dt).

Definition TimeDelta_rollforward (future : Timedelta) (dt : Z) : Res Interval :=
  span <- Timedelta_abs future ;;
  end_ <- Timestamp_add_td dt span ;;
  Interval_new closed_right (Some dt) end_.

Definition TimeCycle_rollback (start n offset : Z)
    (get_time_element replace : Z -> Z) (dt : Z) : Res Interval :=
  span <- Timedelta_mul (n - 1) offset ;;
  dt_start <- Timestamp_sub dt span ;;
  dt_start <- (if get_time_element dt_start >=? start then Ok dt_start
               else Timestamp_sub dt_start offset) ;;
  let dt_start := replace dt_start in
  Interval_new closed_right (Some dt_start) (Some dt).

Definition TimeCycle_rollforward (start n offset : Z)
    (get_time_element replace : Z -> Z) (dt : Z) : Res Interval :=
  span <- Timedelta_mul (n - 1) offset ;;
  dt_end <- Timestamp_add dt span ;;
  dt_end <- (if get_time_element dt_end >=? start
             then Timestamp_add dt_end offset
             else Ok dt_end) ;;
  let dt_end := replace dt_end in
  end_ <- Timestamp_sub dt_end resolution ;;
  Interval_new closed_right (Some dt) (Some end_).

Definition StaticInterval_rollback (start dt : Z) : Res Interval :=
  if start >? dt
  then Interval_new closed_right (Some Timestamp_min) (Some Timestamp_min)
  else Interval_new closed_right (Some start) (Some dt).

Definition StaticInterval_rollforward (end_ dt : Z) : Res Interval :=
  if end_ <? dt
  then Interval_new closed_right (Some Timestamp_max) (Some Timestamp_max)
  else Interval_new closed_right (Some dt) (Some end_).

(** [any(pd.Interval(start, end).overlaps(interval) for interval in
    next_intervals)]: the interval is built once per element, so nothing is
    built (and nothing raised) for an empty list. *)
Definition any_overlaps (start end_ : Z) (next_intervals : list Interval)
  : Res bool :=
  match next_intervals with
  | [] => Ok false
  | _ => span <- Interval_new closed_right (Some start) (Some end_) ;;
         Ok (existsb (overlaps span) next_intervals)
  end.

(** *** Method dispatch

    [rollforward fuel p dt] is the call [p.rollforward(dt)] with [fuel] stack
    frames left: every nested call, to a child period or to the composite
    itself with a new seed, takes one frame, and Python raises
    [RecursionError] when none is left. *)
Fixpoint rollforward (fuel : nat) (p : Period) (dt : Z) {struct fuel}
  : Res Interval :=
  match fuel with
  | O => Raise RecursionError
  | S fuel' =>
    match p with
    | TimeInterval rollstart next_end _ _ _ =>
        TimeInterval_rollforward rollstart next_end dt
    | TimeDelta _ future _ => TimeDelta_rollforward future dt
    | TimeCycle start n offset get_time_element replace =>
        TimeCycle_rollforward start n offset get_time_element replace dt
    | StaticInterval _ end_ => StaticInterval_rollforward end_ dt
    | Offsetted period _ =>
        interval <- rollforward fuel' period dt ;;
        new_dt <- Timestamp_add (right interval) resolution ;;
        rollforward fuel' period new_dt
    | All periods =>
        intervals <- mapM (fun period => rollforward fuel' period dt) periods ;;
        if all_overlap intervals then get_overlapping intervals
        else
          let ends := map right intervals in
          first_end <- py_min ends ;;
          seed <- Timestamp_add first_end datetime_resolution ;;
          rollforward fuel' (All periods) seed
    | Any periods =>
        intervals <- mapM (fun period => rollforward fuel' period dt) periods ;;
        let starts := map left intervals in
        let ends := map right intervals in
        start <- py_min starts ;;
        end_ <- py_max ends ;;
        seed <- Timestamp_add end_ datetime_resolution ;;
        next_intervals <-
          mapM (fun period => rollforward fuel' period seed) periods ;;
        extend <- any_overlaps start end_ next_intervals ;;
        if extend then
          extended <- rollforward fuel' (Any periods) seed ;;
          Interval_new closed_right (Some start) (Some (right extended))
        else Interval_new closed_right (Some start) (Some end_)
    end
  end.

Fixpoint rollback (fuel : nat) (p : Period) (dt : Z) {struct fuel}
  : Res Interval :=
  match fuel with
  | O => Raise RecursionError
  | S fuel' =>
    match p with
    | TimeInterval _ _ rollend prev_start _ =>
        TimeInterval_rollback rollend prev_start dt
    | TimeDelta past _ _ => TimeDelta_rollback past dt
    | TimeCycle start n offset get_time_element replace =>
        TimeCycle_rollback start n offset get_time_element replace dt
    | StaticInterval start _ => StaticInterval_rollback start dt
    | Offsetted period _ =>
        interval <- rollback fuel' period dt ;;
        new_dt <- Timestamp_sub (left interval) resolution ;;
        rollback fuel' period new_dt
    | All periods =>
        intervals <- mapM (fun period => rollback fuel' period dt) periods ;;
        if all_overlap intervals then get_overlapping intervals
        else
          let starts := map left intervals in
          last_start <- py_max starts ;;
          seed <- Timestamp_sub last_start datetime_resolution ;;
          rollback fuel' (All periods) seed
    | Any periods =>
        intervals <- mapM (fun period => rollback fuel' period dt) periods ;;
        let starts := map left intervals in
        let ends := map right intervals in
        start <- py_min starts ;;
        end_ <- py_max ends ;;
        seed <- Timestamp_sub start datetime_resolution ;;
        next_intervals <-
          mapM (fun period => rollback fuel' period seed) periods ;;
        extend <- any_overlaps start end_ next_intervals ;;
        if extend then
          extended <- rollback fuel' (Any periods) seed ;;
          Interval_new closed_right (Some (left extended)) (Some end_)
        else Interval_new closed_right (Some start) (Some end_)
    end
  end.

(** [TimePeriod.next] and [TimePeriod.prev]. The re-roll reads [dt.right]
    and [dt.left], attributes of the instant [dt]. *)
Definition next (fuel : nat) (p : Period) (dt : Z) : Res Interval :=
  interv <- rollforward fuel p dt ;;
  if Interval_contains interv dt then
    edge <- Timestamp_getattr dt "right" ;;
    seed <- Timestamp_add edge resolution ;;
    rollforward fuel p seed
  else Ok interv.

Definition prev (fuel : nat) (p : Period) (dt : Z) : Res Interval :=
  interv <- rollback fuel p dt ;;
  if Interval_contains interv dt then
    edge <- Timestamp_getattr dt "left" ;;
    seed <- Timestamp_sub edge resolution ;;
    rollback fuel p seed
  else Ok interv.

(** [TimePeriod.__contains__], inherited by every class that does not
    override it. *)
Definition TimePeriod_contains (fuel : nat) (p : Period) (other : Z)
  : Res bool :=
  interval <- rollforward fuel p other ;;
  Ok (Interval_contains interval other).

(** [TimeDelta.__contains__]. *)
Definition TimeDelta_contains (past future : Timedelta)
    (reference : option Z) (dt : Z) : Res bool :=
  match reference with
  | None => Raise AttributeError
  | Some reference =>
      span_past <- Timedelta_abs past ;;
      start <- Timestamp_sub_td reference span_past ;;
      span_future <- Timedelta_abs future ;;
      end_ <- Timestamp_add_td reference span_future ;;
      Ok (le_nat start (Some dt) && le_nat (Some dt) end_)
  end.

(** [other in p]: the class's own [__contains__]. *)
Definition contains (fuel : nat) (p : Period) (other : Z) : Res bool :=
  match p with
  | TimeInterval _ _ _ _ contains_ => Ok (contains_ other)
  | TimeDelta past future reference =>
      TimeDelta_contains past future reference other
  | _ => TimePeriod_contains fuel p other
  end.

(** *** Properties of the returned intervals *)

(** The [closed] attribute of the intervals of each class: only
    [TimeInterval] passes [closed="both"], [Offsetted] hands on the
    intervals of the period it wraps, every other class leaves the default
    of [pd.Interval]. *)
Fixpoint closed_of (p : Period) : Closed :=
  match p with
  | TimeInterval _ _ _ _ _ => closed_both
  | Offsetted period _ => closed_of period
  | _ => closed_right
  end.

Definition well_formed (c : Closed) (iv : Interval) : Prop :=
  left iv <= right iv /\ closed iv = c.

(** Successive seeds of [All.rollforward]: from [dt] with [fuel] frames
    left, the children's intervals do not all overlap and the search moves
    to one [datetime.datetime.resolution] past the earliest right edge, until
    it stands at [dt'] with [fuel'] frames left. *)
Inductive reseeds (periods : list Period) : nat -> Z -> nat -> Z -> Prop :=
| reseeds_here (fuel : nat) (dt : Z) : reseeds periods fuel dt fuel dt
| reseeds_step (fuel fuel' : nat) (dt dt' first_end : Z)
               (intervals : list Interval) :
    mapM (fun period => rollforward fuel period dt) periods = Ok intervals ->
    all_overlap intervals = false ->
    py_min (map right intervals) = Ok first_end ->
    in_bounds (first_end + datetime_resolution) = true ->
    reseeds periods fuel (first_end + datetime_resolution) fuel' dt' ->
    reseeds periods (S fuel) dt fuel' dt'.

End Period.

Arguments Period.Interval_new : simpl never.
Arguments Period.get_overlapping : simpl never.
Arguments Period.Timestamp_add : simpl never.
Arguments Period.Timestamp_sub : simpl never.

(** ** Condition trees: [rocketry/core/condition/base.py] *)

Module Condition.

Section Conditions.

(** The keyword arguments passed to [observe], and the world that the state
    functions of leaf conditions read and change (run history, call
    counters, ...). *)
Variable Ctx : Type.
Variable State : Type.

(** An evaluation returns a boolean or raises, and leaves a new world. *)
Definition Eval : Type := State -> Res bool * State.

(** The objects a condition tree is made of. [Leaf cls get_state] is an
    instance of a user class [cls] deriving from [BaseCondition] whose
    [observe] binds the context and calls [get_state]; leaf classes are
    taken to be unrelated by inheritance. [Value v] is an object that is not
    a condition: nothing stops a caller from passing one to a constructor. *)
Inductive object : Type :=
| Leaf (cls : string) (get_state : Ctx -> Eval)
| Any (subconditions : list object)
| All (subconditions : list object)
| Not (condition : object)
| AlwaysTrue
| AlwaysFalse
| Value (v : pyvalue).

Definition isinstance_BaseCondition (x : object) : bool :=
  match x with
  | Value _ => false
  | _ => true
  end.

(** *** Constructors and operators *)

(** [Any.__init__] and [All.__init__]: a child of the node's own class
    contributes its children, any other object contributes itself. *)
Definition Any_init (conditions : list object) : object :=
  Any (flat_map (fun cond =>
                   match cond with
                   | Any subconditions => subconditions
                   | _ => [cond]
                   end) conditions).

Definition All_init (conditions : list object) : object :=
  All (flat_map (fun cond =>
                   match cond with
                   | All subconditions => subconditions
                   | _ => [cond]
                   end) conditions).

(** [Not.__init__] stores its argument. *)
Definition Not_init (condition : object) : object := Not condition.

(** [self & other], [self | other] and [~self]. On a [Not] node [~] gives
    the wrapped condition back; on any other condition it wraps. On an
    object that is not a condition [~] is that object's own operator. *)
Definition and_ (self other : object) : object := All_init [self; other].

Definition or_ (self other : object) : object := Any_init [self; other].

Definition invert (self : object) : Res object :=
  match self with
  | Not condition => Ok condition
  | Value (PyInt z) => Ok (Value (PyInt (- z - 1)))
  | Value _ => Raise TypeError
  | _ => Ok (Not_init self)
  end.

(** *** Equality: the [__eq__] of each class *)

(** [l == l'] on Python lists. *)
Fixpoint list_eq {A : Type} (eq_ : A -> A -> bool) (l l' : list A) : bool :=
  match l, l' with
  | [], [] => true
  | x :: r, y :: r' => eq_ x y && list_eq eq_ r r'
  | _, _ => false
  end.

Fixpoint eq_ (self other : object) {struct self} : bool :=
  match self with
  | Not condition =>
      match other with
      | Not condition' => eq_ condition condition'
      | _ => false
      end
  | Any subconditions =>
      match other with
      | Any subconditions' => list_eq eq_ subconditions subconditions'
      | _ => false
      end
  | All subconditions =>
      match other with
      | All subconditions' => list_eq eq_ subconditions subconditions'
      | _ => false
      end
  | Leaf cls _ =>
      match other with
      | Leaf cls' _ => String.eqb cls cls'
      | _ => false
      end
  | AlwaysTrue => match other with AlwaysTrue => true | _ => false end
  | AlwaysFalse => match other with AlwaysFalse => true | _ => false end
  | Value v => match other with Value w => pyvalue_eqb v w | _ => false end
  end.

(** *** Evaluation *)

(** The loop of [Any.observe]: leave with [True] at the first child that
    observes true. *)
Fixpoint Any_loop {A : Type} (observe_ : A -> Eval) (subconditions : list A)
  : Eval :=
  fun s =>
    match subconditions with
    | [] => (Ok false, s)
    | subcond :: rest =>
        match observe_ subcond s with
        | (Ok true, s') => (Ok true, s')
        | (Ok false, s') => Any_loop observe_ rest s'
        | (Raise e, s') => (Raise e, s')
        end
    end.

(** The loop of [All.observe]: leave with [False] at the first child that
    observes false. *)
Fixpoint All_loop {A : Type} (observe_ : A -> Eval) (subconditions : list A)
  : Eval :=
  fun s =>
    match subconditions with
    | [] => (Ok true, s)
    | subcond :: rest =>
        match observe_ subcond s with
        | (Ok true, s') => All_loop observe_ rest s'
        | (Ok false, s') => (Ok false, s')
        | (Raise e, s') => (Raise e, s')
        end
    end.

(** [self.observe] called with the keyword arguments [kwargs]. An object
    that is not a condition has no [observe]. *)
Fixpoint observe (self : object) (kwargs : Ctx) {struct self} : Eval :=
  match self with
  | Leaf _ get_state => get_state kwargs
  | Any subconditions =>
      Any_loop (fun subcond => observe subcond kwargs) subconditions
  | All subconditions =>
      All_loop (fun subcond => observe subcond kwargs) subconditions
  | Not condition =>
      fun s =>
        match observe condition kwargs s with
        | (Ok b, s') => (Ok (negb b), s')
        | (Raise e, s') => (Raise e, s')
        end
  | AlwaysTrue => fun s => (Ok true, s)
  | AlwaysFalse => fun s => (Ok false, s)
  | Value _ => fun s => (Raise AttributeError, s)
  end.

(** *** Predicates on trees *)

Definition is_All (x : object) : bool :=
  match x with All _ => true | _ => false end.

Definition is_Any (x : object) : bool :=
  match x with Any _ => true | _ => false end.

(** No [All] node has an [All] child and no [Any] node an [Any] child,
    anywhere in the tree. *)
Fixpoint flat (x : object) : bool :=
  match x with
  | All subconditions =>
      forallb (fun c => negb (is_All c) && flat c) subconditions
  | Any subconditions =>
      forallb (fun c => negb (is_Any c) && flat c) subconditions
  | Not condition => flat condition
  | _ => true
  end.

(** The children of [subconditions] are observed one after the other from
    world [s], each returns [b], and the world is [s'] in the end. *)
Inductive observed_all (kwargs : Ctx) (b : bool)
  : list object -> State -> State -> Prop :=
| observed_nil (s : State) : observed_all kwargs b [] s s
| observed_cons (c : object) (rest : list object) (s s' s'' : State) :
    observe c kwargs s = (Ok b, s') ->
    observed_all kwargs b rest s' s'' ->
    observed_all kwargs b (c :: rest) s s''.

(** *** Induction on trees *)

(** Induction on trees, with the hypothesis available for every child of a
    composite. *)
Section Induction.

Variable P : object -> Prop.
Hypothesis HLeaf : forall cls get_state, P (Leaf cls get_state).
Hypothesis HAny : forall l, Forall P l -> P (Any l).
Hypothesis HAll : forall l, Forall P l -> P (All l).
Hypothesis HNot : forall c, P c -> P (Not c).
Hypothesis HTrue : P AlwaysTrue.
Hypothesis HFalse : P AlwaysFalse.
Hypothesis HValue : forall v, P (Value v).

Fixpoint object_children_ind (x : object) : P x :=
  match x with
  | Leaf cls get_state => HLeaf cls get_state
  | Any l =>
      HAny ((fix children (l : list object) : Forall P l :=
               match l with
               | [] => Forall_nil P
               | c :: r => Forall_cons c (object_children_ind c) (children r)
               end) l)
  | All l =>
      HAll ((fix children (l : list object) : Forall P l :=
               match l with
               | [] => Forall_nil P
               | c :: r => Forall_cons c (object_children_ind c) (children r)
               end) l)
  | Not c => HNot (object_children_ind c)
  | AlwaysTrue => HTrue
  | AlwaysFalse => HFalse
  | Value v => HValue v
  end.

End Induction.

End Conditions.

Arguments AlwaysTrue {Ctx State}.
Arguments AlwaysFalse {Ctx State}.
Arguments Value {Ctx State} v.
Arguments Leaf {Ctx State} cls get_state.

End Condition.

(** ** Concrete periods and conditions used to exercise the statements *)

Module Examples.

Open Scope Z_scope.

(** One day, in nanoseconds. *)
Definition day : Z := 86400000000000.

(** A daily cycle starting at midnight: the time element of an instant is its
    time of day and [replace] puts an instant on the midnight of its day. *)
Definition daily : Period.Period :=
  Period.TimeCycle 0 1 day (fun dt => dt mod day) (fun dt => dt - dt mod day).

(** A time interval with two occurrences, [[0, 10]] and [[2000, 3000]]. *)
Definition two_slots : Period.Period :=
  Period.TimeInterval
    (fun dt => if dt <=? 10 then Z.max dt 0 else 2000)
    (fun dt => if dt <=? 10 then 10 else 3000)
    (fun dt => if dt <? 2000 then Z.min dt 10 else Z.min dt 3000)
    (fun dt => if dt <? 2000 then 0 else 2000)
    (fun dt => ((0 <=? dt) && (dt <=? 10)) || ((2000 <=? dt) && (dt <=? 3000))).

(** A time interval with the single occurrence [[2500, 4000]]. *)
Definition late_slot : Period.Period :=
  Period.TimeInterval
    (fun dt => Z.max dt 2500) (fun _ => 4000)
    (fun dt => Z.min dt 4000) (fun _ => 2500)
    (fun dt => (2500 <=? dt) && (dt <=? 4000)).

(** A time interval with the occurrences [[0, 10]] and [[11, 3000]]. *)
Definition slots_a : Period.Period :=
  Period.TimeInterval
    (fun dt => if dt <=? 10 then Z.max dt 0 else Z.max dt 11)
    (fun dt => if dt <=? 10 then 10 else 3000)
    (fun dt => if dt <? 11 then Z.min dt 10 else Z.min dt 3000)
    (fun dt => if dt <? 11 then 0 else 11)
    (fun dt => ((0 <=? dt) && (dt <=? 10)) || ((11 <=? dt) && (dt <=? 3000))).

(** A time interval with the occurrences [[11, 20]] and [[2500, 4000]]. *)
Definition slots_b : Period.Period :=
  Period.TimeInterval
    (fun dt => if dt <=? 20 then Z.max dt 11 else Z.max dt 2500)
    (fun dt => if dt <=? 20 then 20 else 4000)
    (fun dt => if dt <? 2500 then Z.min dt 20 else Z.min dt 4000)
    (fun dt => if dt <? 2500 then 11 else 2500)
    (fun dt => ((11 <=? dt) && (dt <=? 20)) || ((2500 <=? dt) && (dt <=? 4000))).

(** Two time intervals that meet in one instant: [[0, 10]] and
    [[10, 20]]. *)
Definition until_ten : Period.Period :=
  Period.TimeInterval
    (fun dt => Z.max dt 0) (fun _ => 10)
    (fun dt => Z.min dt 10) (fun _ => 0)
    (fun dt => (0 <=? dt) && (dt <=? 10)).

Definition from_ten : Period.Period :=
  Period.TimeInterval
    (fun dt => Z.max dt 10) (fun _ => 20)
    (fun dt => Z.min dt 20) (fun _ => 10)
    (fun dt => (10 <=? dt) && (dt <=? 20)).

(** A time interval with the single occurrence [[0, 5]]. *)
Definition two_slots_early : Period.Period :=
  Period.TimeInterval
    (fun dt => Z.max dt 0) (fun _ => 5)
    (fun dt => Z.min dt 5) (fun _ => 0)
    (fun dt => (0 <=? dt) && (dt <=? 5)).

(** Leaf conditions over a world that logs the names of the state functions
    called so far, most recent first. *)
Definition probe (name : string) (result : bool)
  : Condition.object unit (list string) :=
  Condition.Leaf name (fun _ log => (Ok result, name :: log)).

End Examples.

(** ** Further methods of the period classes *)

Module PeriodMore.

Open Scope Z_scope.

(** [a == b] on timedeltas: [NaT] is equal to nothing, itself included. *)
Definition Timedelta_eqb (a b : Period.Timedelta) : bool :=
  match a, b with
  | Some x, Some y => x =? y
  | _, _ => false
  end.

(** [TimeDelta.__eq__], called on a time delta with the attributes [past]
    and [future]. *)
Definition TimeDelta_eq (past future : Period.Timedelta) (other : Period.Period)
  : bool :=
  match other with
  | Period.TimeDelta past' future' _ =>
      Timedelta_eqb past past' && Timedelta_eqb future future'
  | _ => false
  end.

(** [StaticInterval.is_max_interval]. *)
Definition is_max_interval (start end_ : Z) : bool :=
  (start =? Period.Timestamp_min) && (end_ =? Period.Timestamp_max).

(** [All.roll_forward] following the words of the specification, for
    comparison with [Period.rollforward] on [All]: roll every child forward;
    when the intervals pairwise overlap return the closed interval from the
    greatest left end to the least right end; otherwise try again from one
    resolution unit of the instants past the least right end. *)
Fixpoint All_rollforward_as_specified (fuel : nat)
    (periods : list Period.Period) (dt : Z) {struct fuel}
  : Res Period.Interval :=
  match fuel with
  | O => Raise RecursionError
  | S fuel' =>
      intervals <-
        mapM (fun period => Period.rollforward fuel' period dt) periods ;;
      if Period.all_overlap intervals then
        start <- py_max (map Period.left intervals) ;;
        end_ <- py_min (map Period.right intervals) ;;
        Period.Interval_new Period.closed_both (Some start) (Some end_)
      else
        first_end <- py_min (map Period.right intervals) ;;
        seed <- Period.Timestamp_add first_end Period.resolution ;;
        All_rollforward_as_specified fuel' periods seed
  end.

(** Successive seeds of [All.rollback], the mirror image of
    [Period.reseeds]: the search moves to one [datetime.datetime.resolution]
    before the latest left edge. *)
Inductive reseeds_back (periods : list Period.Period)
  : nat -> Z -> nat -> Z -> Prop :=
| reseeds_back_here (fuel : nat) (dt : Z) :
    reseeds_back periods fuel dt fuel dt
| reseeds_back_step (fuel fuel' : nat) (dt dt' last_start : Z)
                    (intervals : list Period.Interval) :
    mapM (fun period => Period.rollback fuel period dt) periods
    = Ok intervals ->
    Period.all_overlap intervals = false ->
    py_max (map Period.left intervals) = Ok last_start ->
    Period.in_bounds (last_start - Period.datetime_resolution) = true ->
    reseeds_back periods fuel (last_start - Period.datetime_resolution)
                 fuel' dt' ->
    reseeds_back periods (S fuel) dt fuel' dt'.

End PeriodMore.

(** ** Recognisers of the constant conditions *)

Module ConditionMore.

Section Constants.

Variable Ctx : Type.
Variable State : Type.

(** [isinstance(x, AlwaysTrue)] and [isinstance(x, AlwaysFalse)]. *)
Definition is_AlwaysTrue (x : Condition.object Ctx State) : bool :=
  match x with
  | Condition.AlwaysTrue => true
  | _ => false
  end.

Definition is_AlwaysFalse (x : Condition.object Ctx State) : bool :=
  match x with
  | Condition.AlwaysFalse => true
  | _ => false
  end.

End Constants.

End ConditionMore.

(** ** The registry of period classes *)

Module Registry.

(** The keys of [PERIOD_CLASSES]: the three abstract period classes. *)
Inductive group : Set := TimeCycle | TimeDelta | TimeInterval.

Definition group_eqb (g h : group) : bool :=
  match g, h with
  | TimeCycle, TimeCycle | TimeDelta, TimeDelta
  | TimeInterval, TimeInterval => true
  | _, _ => false
  end.

(** A class, as far as the registry looks at it: its [__name__] (an ASCII
    identifier) and which of the abstract classes are in its method
    resolution order. *)
Record pyclass : Set := mkClass {
  name : string;
  is_cycle : bool;
  is_interval : bool;
  is_delta : bool
}.

(** The dictionary [PERIOD_CLASSES]: a list of classes per key, empty at
    start. *)
Definition registry : Set := group -> list pyclass.

Definition PERIOD_CLASSES : registry := fun _ => [].

(** [str.lower] on ASCII text. *)
Definition lower_char (c : Ascii.ascii) : Ascii.ascii :=
  let n := Ascii.nat_of_ascii c in
  if (Nat.leb 65 n && Nat.leb n 90)%bool
  then Ascii.ascii_of_nat (n + 32)
  else c.

Fixpoint lower (s : string) : string :=
  match s with
  | EmptyString => EmptyString
  | String c s' => String (lower_char c) (lower s')
  end.

Definition get_period (classes : registry) (name_ : string) (g : group)
  : Res pyclass :=
  let periods := classes g in
  let period :=
    filter (fun period => String.eqb (lower (name period)) (lower name_))
           periods in
  match period with
  | [] => Raise ValueError
  | first :: _ => Ok first
  end.

Definition register_class (classes : registry) (cls : pyclass)
  : Res registry :=
  let n_parents :=
    (Nat.b2n (is_cycle cls) + Nat.b2n (is_interval cls)
     + Nat.b2n (is_delta cls))%nat in
  if Nat.ltb 1 n_parents then Raise TypeError
  else if Nat.ltb n_parents 1 then Raise TypeError
  else
    let parent :=
      if is_cycle cls then TimeCycle
      else if is_interval cls then TimeInterval
      else TimeDelta in
    Ok (fun g => if group_eqb g parent then classes g ++ [cls] else classes g).

End Registry.

(** ** The error monad *)

Lemma bind_Ok (A B : Type) (m : Res A) (k : A -> Res B) (b : B) :
  bind m k = Ok b -> exists a, m = Ok a /\ k a = Ok b.
Proof.
  destruct m as [a|e]; simpl; intros H.
  - exists a. split; [reflexivity | exact H].
  - discriminate H.
Qed.

Lemma mapM_Ok (A B : Type) (f : A -> Res B) (l : list A) (bs : list B) :
  mapM f l = Ok bs -> Forall2 (fun a b => f a = Ok b) l bs.
Proof.
  revert bs. induction l as [|a l IH]; simpl; intros bs H.
  - injection H as <-. constructor.
  - apply bind_Ok in H. destruct H as (b & Hb & H).
    apply bind_Ok in H. destruct H as (bs' & Hbs & H).
    injection H as <-. constructor; [exact Hb | apply IH; exact Hbs].
Qed.

(** Inverts hypotheses of the form [bind m k = Ok v]. *)
Ltac inv_bind H :=
  let a := fresh "a" in
  let Ha := fresh "Ha" in
  apply bind_Ok in H; destruct H as (a & Ha & H).

(** ** Intervals *)

Section IntervalFacts.

Import Period.
Open Scope Z_scope.

Lemma Interval_new_Ok (c : Closed) (l r : option Z) (iv : Interval) :
  Interval_new c l r = Ok iv ->
  exists l' r', l = Some l' /\ r = Some r' /\ l' <= r'
                /\ iv = mkInterval l' r' c.
Proof.
  unfold Interval_new. destruct l as [l'|]; [|discriminate].
  destruct r as [r'|]; [|discriminate].
  destruct (r' <? l') eqn:E; [discriminate|].
  intros H. injection H as <-. exists l', r'.
  apply Z.ltb_ge in E. repeat split; assumption.
Qed.

Lemma Interval_contains_both (iv : Interval) (p : Z) :
  closed iv = closed_both ->
  (Interval_contains iv p = true <-> left iv <= p <= right iv).
Proof.
  intros Hc. unfold Interval_contains, closed_left_side, closed_right_side.
  rewrite Hc. rewrite andb_true_iff, !Z.leb_le. reflexivity.
Qed.

Lemma Interval_contains_right (iv : Interval) (p : Z) :
  closed iv = closed_right ->
  (Interval_contains iv p = true <-> left iv < p <= right iv).
Proof.
  intros Hc. unfold Interval_contains, closed_left_side, closed_right_side.
  rewrite Hc. rewrite andb_true_iff, Z.ltb_lt, Z.leb_le. reflexivity.
Qed.

(** With the default [closed], the left end point is outside. *)
Lemma left_not_in_right_closed (iv : Interval) :
  closed iv = closed_right -> Interval_contains iv (left iv) = false.
Proof.
  intros Hc. destruct (Interval_contains iv (left iv)) eqn:E; [|reflexivity].
  apply Interval_contains_right in E; [lia | exact Hc].
Qed.

Lemma overlaps_sym (a b : Interval) : overlaps a b = overlaps b a.
Proof. unfold overlaps. apply andb_comm. Qed.

Lemma overlaps_bounds (a b : Interval) :
  overlaps a b = true -> left a <= right b /\ left b <= right a.
Proof.
  unfold overlaps. rewrite andb_true_iff. intros [H1 H2].
  destruct (closed_left_side a && closed_right_side b);
    destruct (closed_left_side b && closed_right_side a);
    rewrite ?Z.leb_le, ?Z.ltb_lt in H1, H2; lia.
Qed.

End IntervalFacts.

(** ** Invariants of the roll operations *)

Section RollFacts.

Import Period.
Open Scope Z_scope.

Lemma Interval_new_wf (c : Closed) (l r : option Z) (iv : Interval) :
  Interval_new c l r = Ok iv -> well_formed c iv.
Proof.
  intros H. apply Interval_new_Ok in H.
  destruct H as (l' & r' & _ & _ & Hle & ->). split; [exact Hle | reflexivity].
Qed.

Lemma get_overlapping_wf (times : list Interval) (iv : Interval) :
  get_overlapping times = Ok iv -> well_formed closed_right iv.
Proof.
  unfold get_overlapping. intros H. inv_bind H. inv_bind H.
  eapply Interval_new_wf; eassumption.
Qed.

Lemma rollforward_wf (fuel : nat) :
  forall (p : Period) (dt : Z) (iv : Interval),
    rollforward fuel p dt = Ok iv -> well_formed (closed_of p) iv.
Proof.
  induction fuel as [|fuel IH]; intros p dt iv H; [discriminate|].
  destruct p; simpl in H.
  - eapply Interval_new_wf; exact H.
  - unfold TimeDelta_rollforward in H. do 2 inv_bind H.
    eapply Interval_new_wf; exact H.
  - unfold TimeCycle_rollforward in H. do 4 inv_bind H.
    eapply Interval_new_wf; exact H.
  - inv_bind H. destruct (all_overlap a).
    + eapply get_overlapping_wf; exact H.
    + do 2 inv_bind H. apply (IH _ _ _ H).
  - do 6 inv_bind H. destruct a4.
    + inv_bind H. eapply Interval_new_wf; exact H.
    + eapply Interval_new_wf; exact H.
  - do 2 inv_bind H. apply IH in H. exact H.
  - unfold StaticInterval_rollforward in H.
    destruct (end_ <? dt); eapply Interval_new_wf; exact H.
Qed.

Lemma rollback_wf (fuel : nat) :
  forall (p : Period) (dt : Z) (iv : Interval),
    rollback fuel p dt = Ok iv -> well_formed (closed_of p) iv.
Proof.
  induction fuel as [|fuel IH]; intros p dt iv H; [discriminate|].
  destruct p; simpl in H.
  - eapply Interval_new_wf; exact H.
  - unfold TimeDelta_rollback in H. do 2 inv_bind H.
    eapply Interval_new_wf; exact H.
  - unfold TimeCycle_rollback in H. do 3 inv_bind H.
    eapply Interval_new_wf; exact H.
  - inv_bind H. destruct (all_overlap a).
    + eapply get_overlapping_wf; exact H.
    + do 2 inv_bind H. apply (IH _ _ _ H).
  - do 6 inv_bind H. destruct a4.
    + inv_bind H. eapply Interval_new_wf; exact H.
    + eapply Interval_new_wf; exact H.
  - do 2 inv_bind H. apply IH in H. exact H.
  - unfold StaticInterval_rollback in H.
    destruct (start >? dt); eapply Interval_new_wf; exact H.
Qed.

End RollFacts.

(** ** [next] and [prev] *)

Section NextPrev.

Import Period.
Open Scope Z_scope.

(** Whenever [next] returns an interval, the instant is outside it: the
    interval is then the one of the first roll. *)
Lemma next_returns_first_roll
    (fuel : nat) (p : Period) (dt : Z) (iv : Interval) :
  next fuel p dt = Ok iv ->
  rollforward fuel p dt = Ok iv /\ Interval_contains iv dt = false.
Proof.
  unfold next. intros H. inv_bind H.
  destruct (Interval_contains a dt) eqn:E.
  - discriminate H.
  - injection H as <-. split; [exact Ha | exact E].
Qed.

(** When the instant is inside the first roll, the re-roll is never reached:
    reading [dt.right] raises. *)
Lemma next_inside_raises (fuel : nat) (p : Period) (dt : Z) (iv : Interval) :
  rollforward fuel p dt = Ok iv ->
  Interval_contains iv dt = true ->
  next fuel p dt = Raise AttributeError.
Proof.
  intros Hroll Hin. unfold next. rewrite Hroll. simpl. rewrite Hin. reflexivity.
Qed.

Lemma prev_returns_first_roll
    (fuel : nat) (p : Period) (dt : Z) (iv : Interval) :
  prev fuel p dt = Ok iv ->
  rollback fuel p dt = Ok iv /\ Interval_contains iv dt = false.
Proof.
  unfold prev. intros H. inv_bind H.
  destruct (Interval_contains a dt) eqn:E.
  - discriminate H.
  - injection H as <-. split; [exact Ha | exact E].
Qed.

Lemma prev_inside_raises (fuel : nat) (p : Period) (dt : Z) (iv : Interval) :
  rollback fuel p dt = Ok iv ->
  Interval_contains iv dt = true ->
  prev fuel p dt = Raise AttributeError.
Proof.
  intros Hroll Hin. unfold prev. rewrite Hroll. simpl. rewrite Hin. reflexivity.
Qed.

(** C1. [next(t)] and [prev(t)] are to re-roll from one resolution unit past
    the far edge of the first interval when [t] lies inside it. On the code
    the re-roll is not reached. [TimeDelta(past=5).prev(100)]: the first roll
    is the interval from 95 to 100, which contains 100, and [prev] raises
    [AttributeError] instead of returning an earlier interval. The same
    happens in [next] for a time interval whose current occurrence holds the
    instant. *)
Theorem next_prev_reroll_raises :
  TimeDelta_init (Some (Some 5)) None = Ok (TimeDelta (Some 5) (Some 0) None)
  /\ rollback 5 (TimeDelta (Some 5) (Some 0) None) 100
     = Ok (mkInterval 95 100 closed_right)
  /\ Interval_contains (mkInterval 95 100 closed_right) 100 = true
  /\ prev 5 (TimeDelta (Some 5) (Some 0) None) 100 = Raise AttributeError
  /\ rollforward 5 Examples.two_slots 5 = Ok (mkInterval 5 10 closed_both)
  /\ Interval_contains (mkInterval 5 10 closed_both) 5 = true
  /\ next 5 Examples.two_slots 5 = Raise AttributeError.
Proof. repeat split; reflexivity. Qed.

End NextPrev.

(** ** Closedness of the returned intervals *)

Section Closedness.

Import Period.
Open Scope Z_scope.

(** The intervals of a [TimeInterval] are closed at both ends. *)
Lemma TimeInterval_rollforward_closed
    (rollstart next_end : Z -> Z) (dt p : Z) (iv : Interval) :
  TimeInterval_rollforward rollstart next_end dt = Ok iv ->
  (Interval_contains iv p = true <-> left iv <= p <= right iv).
Proof.
  intros H. unfold TimeInterval_rollforward in H.
  apply Interval_new_wf in H. destruct H as [_ Hc].
  apply Interval_contains_both. exact Hc.
Qed.

(** The intervals of every class that leaves [closed] to its default are
    open on the left: the left end point is outside. *)
Lemma rollforward_left_open (fuel : nat) (p : Period) (dt : Z) (iv : Interval) :
  closed_of p = closed_right ->
  rollforward fuel p dt = Ok iv ->
  Interval_contains iv (left iv) = false.
Proof.
  intros Hp H. apply rollforward_wf in H. destruct H as [_ Hc].
  apply left_not_in_right_closed. rewrite Hc. exact Hp.
Qed.

Lemma rollback_left_open (fuel : nat) (p : Period) (dt : Z) (iv : Interval) :
  closed_of p = closed_right ->
  rollback fuel p dt = Ok iv ->
  Interval_contains iv (left iv) = false.
Proof.
  intros Hp H. apply rollback_wf in H. destruct H as [_ Hc].
  apply left_not_in_right_closed. rewrite Hc. exact Hp.
Qed.

(** C2. Every interval of a roll is to be closed at both ends, so that its
    left end point is in it. On the code [TimeDelta(future=5).rollforward(0)]
    is the interval from 0 to 5 with the default [closed="right"], and 0 is
    not in it; the same holds for [TimeDelta.rollback], for
    [TimeCycle.rollforward] and for [StaticInterval]. *)
Theorem roll_intervals_left_open :
  rollforward 1 (TimeDelta (Some 0) (Some 5) None) 0
  = Ok (mkInterval 0 5 closed_right)
  /\ Interval_contains (mkInterval 0 5 closed_right) 0 = false
  /\ rollback 1 (TimeDelta (Some 5) (Some 0) None) 100
     = Ok (mkInterval 95 100 closed_right)
  /\ Interval_contains (mkInterval 95 100 closed_right) 95 = false
  /\ rollforward 1 Examples.daily 10
     = Ok (mkInterval 10 (Examples.day - 1) closed_right)
  /\ Interval_contains (mkInterval 10 (Examples.day - 1) closed_right) 10
     = false
  /\ rollforward 1 (StaticInterval 0 50) 7 = Ok (mkInterval 7 50 closed_right)
  /\ Interval_contains (mkInterval 7 50 closed_right) 7 = false.
Proof. repeat split; reflexivity. Qed.

End Closedness.

(** ** Membership *)

Section Membership.

Import Period.
Open Scope Z_scope.

(** What the constructor of a [TimeDelta] returns when it returns: finite,
    non-negative durations and no reference. *)
Lemma TimeDelta_init_Ok (past future : option Timedelta) (p : Period) :
  TimeDelta_init past future = Ok p ->
  exists span_past span_future : Z,
    p = TimeDelta (Some span_past) (Some span_future) None
    /\ 0 <= span_past /\ 0 <= span_future.
Proof.
  unfold TimeDelta_init. intros H. do 2 inv_bind H.
  destruct (match past with Some d => d | None => Some 0 end) as [x|];
    [|discriminate Ha].
  destruct (match future with Some d => d | None => Some 0 end) as [y|];
    [|discriminate Ha0].
  injection Ha as <-. injection Ha0 as <-. simpl in H. injection H as <-.
  exists (Z.abs x), (Z.abs y). repeat split; apply Z.abs_nonneg.
Qed.

(** C3. Every instant is to belong to a cycle. On the code the membership
    test of a [TimeCycle], inherited from [TimePeriod], never answers true:
    the interval rolled forward from [t] starts at [t] and is open on the
    left. For the daily cycle, [10 in daily] is false. *)
Theorem TimeCycle_contains_never_true :
  (forall (fuel : nat) (start n offset : Z) (get_time_element replace : Z -> Z)
          (t : Z),
      contains fuel (TimeCycle start n offset get_time_element replace) t
      <> Ok true)
  /\ contains 5 Examples.daily 10 = Ok false.
Proof.
  split; [|reflexivity].
  intros fuel start n offset gte rep t H.
  simpl in H. unfold TimePeriod_contains in H. inv_bind H.
  injection H as H.
  assert (Hl : left a = t).
  { destruct fuel as [|fuel]; [discriminate|]. simpl in Ha.
    unfold TimeCycle_rollforward in Ha. do 4 inv_bind Ha.
    apply Interval_new_Ok in Ha.
    destruct Ha as (l' & r' & Hl & _ & _ & ->). injection Hl as <-.
    reflexivity. }
  assert (Hout : Interval_contains a (left a) = false)
    by (eapply rollforward_left_open; [|exact Ha]; reflexivity).
  rewrite Hl in Hout. congruence.
Qed.

(** C8. The membership test of a [TimeDelta] without a [reference] raises
    (the error kind is [AttributeError]), also right after construction;
    with a reference, an instant is in the period exactly when it lies
    between [reference - past] and [reference + future], both included. *)
Theorem TimeDelta_contains_reference :
  (forall (fuel : nat) (past future : Timedelta) (dt : Z),
      contains fuel (TimeDelta past future None) dt = Raise AttributeError)
  /\ (forall (fuel : nat) (past future : option Timedelta) (p : Period)
             (dt : Z),
         TimeDelta_init past future = Ok p ->
         contains fuel p dt = Raise AttributeError)
  /\ (forall (fuel : nat) (past future reference dt : Z),
         in_bounds (reference - Z.abs past) = true ->
         in_bounds (reference + Z.abs future) = true ->
         exists b,
           contains fuel
             (TimeDelta (Some past) (Some future) (Some reference)) dt
           = Ok b
           /\ (b = true <->
               reference - Z.abs past <= dt <= reference + Z.abs future)).
Proof.
  split; [reflexivity|]. split.
  - intros fuel past future p dt H.
    apply TimeDelta_init_Ok in H. destruct H as (sp & sf & -> & _).
    reflexivity.
  - intros fuel past future reference dt Hlo Hhi.
    exists ((reference - Z.abs past <=? dt)
            && (dt <=? reference + Z.abs future)).
    split.
    + simpl. unfold TimeDelta_contains, Timestamp_sub_td, Timestamp_add_td,
        Timestamp_add. simpl.
      replace (reference + - Z.abs past) with (reference - Z.abs past) by lia.
      rewrite Hlo, Hhi. reflexivity.
    + rewrite andb_true_iff, !Z.leb_le. reflexivity.
Qed.

Lemma TimeDelta_contains_reference_witness :
  exists b,
    contains 1 (TimeDelta (Some 3600) (Some 0) (Some 100000)) 96400 = Ok b
    /\ (b = true <-> 100000 - Z.abs 3600 <= 96400 <= 100000 + Z.abs 0).
Proof.
  apply (proj2 (proj2 TimeDelta_contains_reference) 1%nat 3600 0 100000 96400);
    reflexivity.
Defined.

End Membership.

(** ** Construction of periods *)

Section PeriodConstruction.

Import Period.
Open Scope Z_scope.

Lemma the_periods_all (periods : list Period) :
  the_periods (map APeriod periods) = periods.
Proof.
  unfold the_periods.
  induction periods as [|p l IH]; simpl; [reflexivity|].
  rewrite IH. reflexivity.
Qed.

Lemma no_foreign_argument (periods : list Period) :
  existsb (fun a => negb (isinstance_TimePeriod a)) (map APeriod periods)
  = false.
Proof. induction periods as [|p l IH]; simpl; [reflexivity | exact IH]. Qed.




(** C9, as the code has it. The period composites refuse an argument that
    is not a period with [TypeError] and accept any list of periods, the
    empty one included. The condition composites accept every argument
    list: none makes an empty composite, and an object that is not a
    condition becomes a child, in its place among the children that the
    arguments before and after it contribute. *)
Theorem composite_construction :
  (forall args : list arg,
      existsb (fun a => negb (isinstance_TimePeriod a)) args = true ->
      All_init args = Raise TypeError /\ Any_init args = Raise TypeError)
  /\ (forall periods : list Period,
         All_init (map APeriod periods) = Ok (All periods)
         /\ Any_init (map APeriod periods) = Ok (Any periods))
  /\ All_init [] = Ok (All [])
  /\ Any_init [] = Ok (Any [])
  /\ (forall (Ctx State : Type) (v : pyvalue),
         @Condition.All_init Ctx State [] = Condition.All []
         /\ @Condition.Any_init Ctx State [] = Condition.Any []
         /\ @Condition.All_init Ctx State [Condition.Value v]
            = Condition.All [Condition.Value v]
         /\ @Condition.Any_init Ctx State [Condition.Value v]
            = Condition.Any [Condition.Value v])
  /\ (forall (Ctx State : Type) (pre post : list (Condition.object Ctx State))
             (v : pyvalue),
         (exists before after,
             Condition.All_init pre = Condition.All before
             /\ Condition.All_init post = Condition.All after
             /\ Condition.All_init (pre ++ Condition.Value v :: post)
                = Condition.All (before ++ Condition.Value v :: after))
         /\ (exists before after,
                Condition.Any_init pre = Condition.Any before
                /\ Condition.Any_init post = Condition.Any after
                /\ Condition.Any_init (pre ++ Condition.Value v :: post)
                   = Condition.Any (before ++ Condition.Value v :: after)))
  /\ (forall (Ctx State : Type) (args : list (Condition.object Ctx State)),
         Forall (fun x => Condition.isinstance_BaseCondition x = false) args ->
         Condition.All_init args = Condition.All args
         /\ Condition.Any_init args = Condition.Any args).
Proof.
  split; [|split; [|split; [|split; [|split; [|split]]]]].
  - intros args H. unfold All_init, Any_init. rewrite H. split; reflexivity.
  - intros periods. unfold All_init, Any_init.
    rewrite no_foreign_argument, the_periods_all. split; reflexivity.
  - reflexivity.
  - reflexivity.
  - intros. repeat split; reflexivity.
  - intros Ctx State pre post v.
    unfold Condition.All_init, Condition.Any_init. split;
      eexists; eexists; (split; [reflexivity|]); (split; [reflexivity|]);
      rewrite flat_map_app; reflexivity.
  - intros Ctx State args H.
    unfold Condition.All_init, Condition.Any_init.
    induction H as [|x l Hx _ [IHall IHany]]; [split; reflexivity|].
    injection IHall as IHall. injection IHany as IHany.
    destruct x; try discriminate Hx. simpl. rewrite IHall, IHany.
    split; reflexivity.
Qed.

Lemma composite_construction_witness :
  (All_init [APeriod Examples.daily; AValue (PyInt 3)] = Raise TypeError
   /\ Any_init [APeriod Examples.daily; AValue (PyInt 3)] = Raise TypeError)
  /\ (@Condition.All_init unit unit
        [Condition.Value (PyInt 3); Condition.Value PyNone]
      = Condition.All [Condition.Value (PyInt 3); Condition.Value PyNone]
      /\ @Condition.Any_init unit unit
           [Condition.Value (PyInt 3); Condition.Value PyNone]
         = Condition.Any [Condition.Value (PyInt 3); Condition.Value PyNone]).
Proof.
  split.
  - apply (proj1 composite_construction
             [APeriod Examples.daily; AValue (PyInt 3)]).
    reflexivity.
  - apply (proj2 (proj2 (proj2 (proj2 (proj2 (proj2 composite_construction)))))
             unit unit [Condition.Value (PyInt 3); Condition.Value PyNone]).
    repeat constructor.
Defined.

(** C9, as stated, fails: [All()] with no child is constructed. *)
Lemma All_init_empty_succeeds :
  All_init [] = Ok (All []) /\ forall e : exn, All_init [] <> Raise e.
Proof. split; [reflexivity | discriminate]. Qed.

End PeriodConstruction.

(** ** Condition trees *)

Section ConditionFacts.

Import Condition.

Variable Ctx : Type.
Variable State : Type.

#[local] Abbreviation object := (Condition.object Ctx State).

Lemma pyvalue_eqb_refl (v : pyvalue) : pyvalue_eqb v v = true.
Proof.
  destruct v; simpl; [reflexivity | apply Z.eqb_refl | apply String.eqb_refl].
Qed.

Lemma list_eq_refl (l : list object) :
  Forall (fun c => eq_ c c = true) l -> list_eq (@eq_ Ctx State) l l = true.
Proof.
  induction 1 as [|c r Hc _ IH]; simpl; [reflexivity|].
  rewrite Hc, IH. reflexivity.
Qed.

(** A tree is equal to itself. *)
Lemma eq_reflexive (x : object) : eq_ x x = true.
Proof.
  induction x using object_children_ind; simpl.
  - apply String.eqb_refl.
  - apply list_eq_refl; assumption.
  - apply list_eq_refl; assumption.
  - assumption.
  - reflexivity.
  - reflexivity.
  - apply pyvalue_eqb_refl.
Qed.

(** *** Negation *)

Lemma Not_Not_differs (x : object) : Not_init (Not_init x) <> x.
Proof.
  unfold Not_init. induction x; try discriminate.
  intros H. injection H as H. exact (IHx H).
Qed.

Lemma Not_Not_unequal (x : object) : eq_ (Not_init (Not_init x)) x = false.
Proof.
  unfold Not_init. induction x; try reflexivity. simpl. exact IHx.
Qed.

(** C4, as the code has it. The operator [~] applied to [Not(x)] gives [x]
    itself back, and [~] applied twice to a condition that is not a [Not]
    node gives it back as well. The constructor does not inspect its
    argument: [Not(Not(x))] is a node around a node around [x], neither
    identical nor equal to [x]. *)
Theorem invert_Not (x : object) :
  invert (Not_init x) = Ok x
  /\ eq_ x x = true
  /\ (isinstance_BaseCondition x = true ->
      (forall c, x <> Not c) ->
      (y <- invert x ;; invert y) = Ok x)
  /\ Not_init (Not_init x) <> x
  /\ eq_ (Not_init (Not_init x)) x = false.
Proof.
  split; [reflexivity|]. split; [apply eq_reflexive|]. split.
  - intros Hc Hn. destruct x; try reflexivity.
    + exfalso. exact (Hn _ eq_refl).
    + discriminate Hc.
  - split; [apply Not_Not_differs | apply Not_Not_unequal].
Qed.

(** *** Evaluation order *)

Lemma observe_All (l : list object) (kwargs : Ctx) :
  observe (All l) kwargs = All_loop (fun c => observe c kwargs) l.
Proof. reflexivity. Qed.

Lemma observe_Any (l : list object) (kwargs : Ctx) :
  observe (Any l) kwargs = Any_loop (fun c => observe c kwargs) l.
Proof. reflexivity. Qed.

Lemma All_stops_at_first_false (kwargs : Ctx) (pre : list object) :
  forall (c : object) (post : list object) (s s1 s2 : State),
    observed_all kwargs true pre s s1 ->
    observe c kwargs s1 = (Ok false, s2) ->
    observe (All (pre ++ c :: post)) kwargs s = (Ok false, s2).
Proof.
  intros c post s s1 s2 Hpre Hc. rewrite observe_All.
  induction Hpre as [s|d rest s s' s'' Hd _ IH]; simpl.
  - rewrite Hc. reflexivity.
  - rewrite Hd. apply IH. exact Hc.
Qed.

Lemma Any_stops_at_first_true (kwargs : Ctx) (pre : list object) :
  forall (c : object) (post : list object) (s s1 s2 : State),
    observed_all kwargs false pre s s1 ->
    observe c kwargs s1 = (Ok true, s2) ->
    observe (Any (pre ++ c :: post)) kwargs s = (Ok true, s2).
Proof.
  intros c post s s1 s2 Hpre Hc. rewrite observe_Any.
  induction Hpre as [s|d rest s s' s'' Hd _ IH]; simpl.
  - rewrite Hc. reflexivity.
  - rewrite Hd. apply IH. exact Hc.
Qed.

Lemma All_true_iff (kwargs : Ctx) (l : list object) :
  forall s s' : State,
    observe (All l) kwargs s = (Ok true, s')
    <-> observed_all kwargs true l s s'.
Proof.
  rewrite observe_All.
  induction l as [|c r IH]; intros s s'; simpl.
  - split.
    + intros H. injection H as <-. constructor.
    + intros H. inversion H. reflexivity.
  - split.
    + intros H. destruct (observe c kwargs s) as [[[|]|e] s1] eqn:Hc;
        try discriminate H.
      econstructor; [exact Hc | apply IH; exact H].
    + intros H. inversion H as [|c' r' s0 s1 s2 Hc Hr]; subst.
      rewrite Hc. apply IH. exact Hr.
Qed.

Lemma Any_false_iff (kwargs : Ctx) (l : list object) :
  forall s s' : State,
    observe (Any l) kwargs s = (Ok false, s')
    <-> observed_all kwargs false l s s'.
Proof.
  rewrite observe_Any.
  induction l as [|c r IH]; intros s s'; simpl.
  - split.
    + intros H. injection H as <-. constructor.
    + intros H. inversion H. reflexivity.
  - split.
    + intros H. destruct (observe c kwargs s) as [[[|]|e] s1] eqn:Hc;
        try discriminate H.
      econstructor; [exact Hc | apply IH; exact H].
    + intros H. inversion H as [|c' r' s0 s1 s2 Hc Hr]; subst.
      rewrite Hc. apply IH. exact Hr.
Qed.

Lemma All_false_first (kwargs : Ctx) (l : list object) :
  forall s s2 : State,
    observe (All l) kwargs s = (Ok false, s2) ->
    exists pre c post s1,
      l = pre ++ c :: post
      /\ observed_all kwargs true pre s s1
      /\ observe c kwargs s1 = (Ok false, s2).
Proof.
  rewrite observe_All.
  induction l as [|c r IH]; intros s s2 H; simpl in H; [discriminate|].
  destruct (observe c kwargs s) as [[[|]|e] s1] eqn:Hc; try discriminate H.
  - destruct (IH _ _ H) as (pre & d & post & s1' & -> & Hpre & Hd).
    exists (c :: pre), d, post, s1'. repeat split; [|exact Hd].
    econstructor; eassumption.
  - injection H as <-. exists [], c, r, s.
    repeat split; [constructor | exact Hc].
Qed.

Lemma Any_true_first (kwargs : Ctx) (l : list object) :
  forall s s2 : State,
    observe (Any l) kwargs s = (Ok true, s2) ->
    exists pre c post s1,
      l = pre ++ c :: post
      /\ observed_all kwargs false pre s s1
      /\ observe c kwargs s1 = (Ok true, s2).
Proof.
  rewrite observe_Any.
  induction l as [|c r IH]; intros s s2 H; simpl in H; [discriminate|].
  destruct (observe c kwargs s) as [[[|]|e] s1] eqn:Hc; try discriminate H.
  - injection H as <-. exists [], c, r, s.
    repeat split; [constructor | exact Hc].
  - destruct (IH _ _ H) as (pre & d & post & s1' & -> & Hpre & Hd).
    exists (c :: pre), d, post, s1'. repeat split; [|exact Hd].
    econstructor; eassumption.
Qed.

(** C5. [All.observe] observes its children in sequence order and returns
    false at the first child that observes false: whatever comes after that
    child has no part in the result or in the world left behind, so it is
    not observed. It returns true exactly when every child observed true.
    [Any.observe] is the mirror image: true at the first child that observes
    true, false exactly when every child observed false. *)
Theorem observe_short_circuit (kwargs : Ctx) :
  (forall (pre : list object) (c : object) (post : list object)
          (s s1 s2 : State),
      observed_all kwargs true pre s s1 ->
      observe c kwargs s1 = (Ok false, s2) ->
      observe (All (pre ++ c :: post)) kwargs s = (Ok false, s2))
  /\ (forall (l : list object) (s s2 : State),
         observe (All l) kwargs s = (Ok false, s2) ->
         exists pre c post s1,
           l = pre ++ c :: post
           /\ observed_all kwargs true pre s s1
           /\ observe c kwargs s1 = (Ok false, s2))
  /\ (forall (l : list object) (s s' : State),
         observe (All l) kwargs s = (Ok true, s')
         <-> observed_all kwargs true l s s')
  /\ (forall (pre : list object) (c : object) (post : list object)
          (s s1 s2 : State),
         observed_all kwargs false pre s s1 ->
         observe c kwargs s1 = (Ok true, s2) ->
         observe (Any (pre ++ c :: post)) kwargs s = (Ok true, s2))
  /\ (forall (l : list object) (s s2 : State),
         observe (Any l) kwargs s = (Ok true, s2) ->
         exists pre c post s1,
           l = pre ++ c :: post
           /\ observed_all kwargs false pre s s1
           /\ observe c kwargs s1 = (Ok true, s2))
  /\ (forall (l : list object) (s s' : State),
         observe (Any l) kwargs s = (Ok false, s')
         <-> observed_all kwargs false l s s').
Proof.
  split; [intros; eapply All_stops_at_first_false; eassumption|].
  split; [intros; apply All_false_first; assumption|].
  split; [intros; apply All_true_iff|].
  split; [intros; eapply Any_stops_at_first_true; eassumption|].
  split; [intros; apply Any_true_first; assumption|].
  intros; apply Any_false_iff.
Qed.

(** *** Flattening *)

Lemma All_init_flat (args : list object) :
  forallb (@flat Ctx State) args = true -> flat (All_init args) = true.
Proof.
  unfold All_init. simpl. induction args as [|a r IH]; simpl; [reflexivity|].
  rewrite andb_true_iff. intros [Ha Hr].
  rewrite forallb_app, (IH Hr), andb_true_r.
  destruct a; simpl in *; rewrite ?Ha; reflexivity.
Qed.

Lemma Any_init_flat (args : list object) :
  forallb (@flat Ctx State) args = true -> flat (Any_init args) = true.
Proof.
  unfold Any_init. simpl. induction args as [|a r IH]; simpl; [reflexivity|].
  rewrite andb_true_iff. intros [Ha Hr].
  rewrite forallb_app, (IH Hr), andb_true_r.
  destruct a; simpl in *; rewrite ?Ha; reflexivity.
Qed.

Lemma All_loop_app (A : Type) (f : A -> Eval State) (xs ys : list A) (s : State) :
  All_loop f (xs ++ ys) s
  = match All_loop f xs s with
    | (Ok true, s') => All_loop f ys s'
    | r => r
    end.
Proof.
  revert s. induction xs as [|x xs IH]; intros s; simpl; [reflexivity|].
  destruct (f x s) as [[[|]|e] s']; [apply IH | reflexivity | reflexivity].
Qed.

Lemma Any_loop_app (A : Type) (f : A -> Eval State) (xs ys : list A) (s : State) :
  Any_loop f (xs ++ ys) s
  = match Any_loop f xs s with
    | (Ok false, s') => Any_loop f ys s'
    | r => r
    end.
Proof.
  revert s. induction xs as [|x xs IH]; intros s; simpl; [reflexivity|].
  destruct (f x s) as [[[|]|e] s']; [reflexivity | apply IH | reflexivity].
Qed.

(** Absorbing the children of a nested node of the same class changes
    neither the result nor the world left behind. *)
Lemma observe_nested_All (xs rest : list object) (kwargs : Ctx) (s : State) :
  observe (All (All xs :: rest)) kwargs s = observe (All (xs ++ rest)) kwargs s.
Proof.
  rewrite !observe_All, All_loop_app. simpl.
  destruct (All_loop _ xs s) as [[[|]|e] s']; reflexivity.
Qed.

Lemma observe_nested_Any (xs rest : list object) (kwargs : Ctx) (s : State) :
  observe (Any (Any xs :: rest)) kwargs s = observe (Any (xs ++ rest)) kwargs s.
Proof.
  rewrite !observe_Any, Any_loop_app. simpl.
  destruct (Any_loop _ xs s) as [[[|]|e] s']; reflexivity.
Qed.

Lemma All_init_nested (a b c : object) :
  All_init [All_init [a; b]; c] = All_init [a; b; c].
Proof.
  unfold All_init. simpl. f_equal.
  rewrite !app_nil_r, <- app_assoc. reflexivity.
Qed.

Lemma Any_init_nested (a b c : object) :
  Any_init [Any_init [a; b]; c] = Any_init [a; b; c].
Proof.
  unfold Any_init. simpl. f_equal.
  rewrite !app_nil_r, <- app_assoc. reflexivity.
Qed.

(** The node a constructor builds observes as a node holding the
    arguments as they were given. *)
Lemma All_loop_own_children (c : object) (kwargs : Ctx) (s : State) :
  All_loop (fun x => observe x kwargs)
           (match c with All subconditions => subconditions | _ => [c] end) s
  = observe c kwargs s.
Proof.
  destruct c; try reflexivity; cbn [All_loop];
    destruct (observe _ kwargs s) as [[[|]|e] s1]; reflexivity.
Qed.

Lemma Any_loop_own_children (c : object) (kwargs : Ctx) (s : State) :
  Any_loop (fun x => observe x kwargs)
           (match c with Any subconditions => subconditions | _ => [c] end) s
  = observe c kwargs s.
Proof.
  destruct c; try reflexivity; cbn [Any_loop];
    destruct (observe _ kwargs s) as [[[|]|e] s1]; reflexivity.
Qed.

Lemma observe_All_init (l : list object) (kwargs : Ctx) (s : State) :
  observe (All_init l) kwargs s = observe (All l) kwargs s.
Proof.
  unfold All_init. rewrite !observe_All. revert s.
  induction l as [|c r IH]; intros s; [reflexivity|].
  cbn [flat_map]. rewrite All_loop_app, All_loop_own_children.
  cbn [All_loop].
  destruct (observe c kwargs s) as [[[|]|e] s1];
    [apply IH | reflexivity | reflexivity].
Qed.

Lemma observe_Any_init (l : list object) (kwargs : Ctx) (s : State) :
  observe (Any_init l) kwargs s = observe (Any l) kwargs s.
Proof.
  unfold Any_init. rewrite !observe_Any. revert s.
  induction l as [|c r IH]; intros s; [reflexivity|].
  cbn [flat_map]. rewrite Any_loop_app, Any_loop_own_children.
  cbn [Any_loop].
  destruct (observe c kwargs s) as [[[|]|e] s1];
    [reflexivity | apply IH | reflexivity].
Qed.

(** What the constructors hold: an argument of the node's own class
    contributes its children, any other argument itself, in order. *)
Lemma All_init_children (xs rest : list object) :
  exists subs,
    All_init rest = All subs
    /\ All_init (All xs :: rest) = All (xs ++ subs)
    /\ forall x, is_All x = false -> All_init (x :: rest) = All (x :: subs).
Proof.
  unfold All_init. eexists. split; [reflexivity|]. split; [reflexivity|].
  intros x Hx. destruct x; try reflexivity. discriminate Hx.
Qed.

Lemma Any_init_children (xs rest : list object) :
  exists subs,
    Any_init rest = Any subs
    /\ Any_init (Any xs :: rest) = Any (xs ++ subs)
    /\ forall x, is_Any x = false -> Any_init (x :: rest) = Any (x :: subs).
Proof.
  unfold Any_init. eexists. split; [reflexivity|]. split; [reflexivity|].
  intros x Hx. destruct x; try reflexivity. discriminate Hx.
Qed.

(** C6. [All(All(a, b), c)] and [All(a, b, c)] are the same tree, equal by
    the tree's equality, with the same [observe] in every context and
    world, and likewise for [Any]. A composite built from trees without a
    nested node of the composite's own class has none either. The children
    of the node are pinned down: when [a], [b] and [c] are not themselves
    [All] nodes both trees are the node with exactly the children [a], [b],
    [c] in this order; in general an [All] argument contributes its children
    in place of itself and any other argument contributes itself; and the
    node observes as the unflattened nesting would. *)
Theorem flattening (a b c : object) :
  All_init [All_init [a; b]; c] = All_init [a; b; c]
  /\ eq_ (All_init [All_init [a; b]; c]) (All_init [a; b; c]) = true
  /\ (forall (kwargs : Ctx) (s : State),
         observe (All_init [All_init [a; b]; c]) kwargs s
         = observe (All_init [a; b; c]) kwargs s)
  /\ Any_init [Any_init [a; b]; c] = Any_init [a; b; c]
  /\ eq_ (Any_init [Any_init [a; b]; c]) (Any_init [a; b; c]) = true
  /\ (forall (kwargs : Ctx) (s : State),
         observe (Any_init [Any_init [a; b]; c]) kwargs s
         = observe (Any_init [a; b; c]) kwargs s)
  /\ (forall args : list object,
         forallb (@flat Ctx State) args = true ->
         flat (All_init args) = true /\ flat (Any_init args) = true)
  /\ (is_All a = false -> is_All b = false -> is_All c = false ->
      All_init [All_init [a; b]; c] = All [a; b; c]
      /\ All_init [a; b; c] = All [a; b; c])
  /\ (is_Any a = false -> is_Any b = false -> is_Any c = false ->
      Any_init [Any_init [a; b]; c] = Any [a; b; c]
      /\ Any_init [a; b; c] = Any [a; b; c])
  /\ (forall xs rest : list object,
         exists subs,
           All_init rest = All subs
           /\ All_init (All xs :: rest) = All (xs ++ subs)
           /\ forall x, is_All x = false ->
                        All_init (x :: rest) = All (x :: subs))
  /\ (forall xs rest : list object,
         exists subs,
           Any_init rest = Any subs
           /\ Any_init (Any xs :: rest) = Any (xs ++ subs)
           /\ forall x, is_Any x = false ->
                        Any_init (x :: rest) = Any (x :: subs))
  /\ (forall (kwargs : Ctx) (s : State),
         observe (All_init [All_init [a; b]; c]) kwargs s
         = observe (All [All [a; b]; c]) kwargs s
         /\ observe (Any_init [Any_init [a; b]; c]) kwargs s
            = observe (Any [Any [a; b]; c]) kwargs s).
Proof.
  split; [apply All_init_nested|].
  split; [rewrite All_init_nested; apply eq_reflexive|].
  split; [intros; rewrite All_init_nested; reflexivity|].
  split; [apply Any_init_nested|].
  split; [rewrite Any_init_nested; apply eq_reflexive|].
  split; [intros; rewrite Any_init_nested; reflexivity|].
  split; [intros args H; split;
          [apply All_init_flat | apply Any_init_flat]; exact H|].
  split.
  { intros Ha Hb Hc. rewrite All_init_nested.
    destruct a; try discriminate Ha; destruct b; try discriminate Hb;
      destruct c; try discriminate Hc; split; reflexivity. }
  split.
  { intros Ha Hb Hc. rewrite Any_init_nested.
    destruct a; try discriminate Ha; destruct b; try discriminate Hb;
      destruct c; try discriminate Hc; split; reflexivity. }
  split; [apply All_init_children|].
  split; [apply Any_init_children|].
  intros kwargs s. split.
  - rewrite observe_All_init. rewrite !observe_All. cbn [All_loop].
    rewrite observe_All_init. reflexivity.
  - rewrite observe_Any_init. rewrite !observe_Any. cbn [Any_loop].
    rewrite observe_Any_init. reflexivity.
Qed.

End ConditionFacts.

(** *** The statements on concrete trees *)

Section ConditionExamples.

Import Condition.

(** C4, as stated, fails: the constructor [Not] applied twice to
    [AlwaysTrue] is not [AlwaysTrue]. *)
Lemma Not_Not_AlwaysTrue_wrapped :
  @Not_init unit unit (Not_init AlwaysTrue) <> AlwaysTrue
  /\ @eq_ unit unit (Not_init (Not_init AlwaysTrue)) AlwaysTrue = false.
Proof. split; [discriminate | reflexivity]. Qed.

Lemma invert_Not_witness :
  (y <- @invert unit unit AlwaysTrue ;; invert y) = Ok AlwaysTrue.
Proof.
  apply (proj1 (proj2 (proj2 (@invert_Not unit unit AlwaysTrue)))).
  - reflexivity.
  - discriminate.
Defined.

(** A call-count probe: in [All(A, B)] where [A] observes false, the state
    function of [B] is not called. *)
Lemma observe_short_circuit_witness :
  observe (All ([] ++ Examples.probe "A" false :: [Examples.probe "B" true]))
          tt []
  = (Ok false, ["A"%string]).
Proof.
  apply (proj1 (@observe_short_circuit unit (list string) tt)
           [] (Examples.probe "A" false) [Examples.probe "B" true] [] []).
  - constructor.
  - reflexivity.
Defined.

Lemma flattening_witness :
  (flat (All_init [All_init [Examples.probe "A" true; Examples.probe "B" true];
                   Examples.probe "C" true]) = true
   /\ flat (Any_init [All_init [Examples.probe "A" true;
                                Examples.probe "B" true];
                      Examples.probe "C" true]) = true)
  /\ (All_init [All_init [Examples.probe "A" true; Examples.probe "B" true];
                Examples.probe "C" true]
      = All [Examples.probe "A" true; Examples.probe "B" true;
             Examples.probe "C" true]
      /\ All_init [Examples.probe "A" true; Examples.probe "B" true;
                   Examples.probe "C" true]
         = All [Examples.probe "A" true; Examples.probe "B" true;
                Examples.probe "C" true])
  /\ (Any_init [Any_init [Examples.probe "A" true; Examples.probe "B" true];
                Examples.probe "C" true]
      = Any [Examples.probe "A" true; Examples.probe "B" true;
             Examples.probe "C" true]
      /\ Any_init [Examples.probe "A" true; Examples.probe "B" true;
                   Examples.probe "C" true]
         = Any [Examples.probe "A" true; Examples.probe "B" true;
                Examples.probe "C" true]).
Proof.
  pose proof (flattening (Examples.probe "A" true) (Examples.probe "B" true)
                         (Examples.probe "C" true))
    as (_ & _ & _ & _ & _ & _ & Hflat & HAll & HAny & _).
  split; [|split].
  - apply Hflat. reflexivity.
  - apply HAll; reflexivity.
  - apply HAny; reflexivity.
Defined.

End ConditionExamples.

(** ** The composite [All]: intersection by repeated rolls *)

Section AllRollforward.

Import Period.
Open Scope Z_scope.

Lemma fold_max_spec (l : list Z) :
  forall x : Z,
    (fold_left Z.max l x = x \/ In (fold_left Z.max l x) l)
    /\ x <= fold_left Z.max l x
    /\ (forall y, In y l -> y <= fold_left Z.max l x).
Proof.
  induction l as [|a l IH]; intros x; simpl.
  - split; [left; reflexivity|]. split; [lia | intros y []].
  - destruct (IH (Z.max x a)) as (Hin & Hge & Hall).
    split; [|split].
    + destruct Hin as [Heq | Hin]; [|right; right; exact Hin].
      rewrite Heq. destruct (Z.max_spec x a) as [[_ ->] | [_ ->]];
        [right; left; reflexivity | left; reflexivity].
    + lia.
    + intros y [<- | Hy]; [lia | apply Hall; exact Hy].
Qed.

Lemma fold_min_spec (l : list Z) :
  forall x : Z,
    (fold_left Z.min l x = x \/ In (fold_left Z.min l x) l)
    /\ fold_left Z.min l x <= x
    /\ (forall y, In y l -> fold_left Z.min l x <= y).
Proof.
  induction l as [|a l IH]; intros x; simpl.
  - split; [left; reflexivity|]. split; [lia | intros y []].
  - destruct (IH (Z.min x a)) as (Hin & Hge & Hall).
    split; [|split].
    + destruct Hin as [Heq | Hin]; [|right; right; exact Hin].
      rewrite Heq. destruct (Z.min_spec x a) as [[_ ->] | [_ ->]];
        [left; reflexivity | right; left; reflexivity].
    + lia.
    + intros y [<- | Hy]; [lia | apply Hall; exact Hy].
Qed.

(** [max] of a non-empty list is one of its elements and bounds them all. *)
Lemma py_max_spec (l : list Z) :
  l <> [] ->
  exists m, py_max l = Ok m /\ In m l /\ forall y, In y l -> y <= m.
Proof.
  destruct l as [|x l]; [intros H; contradiction H; reflexivity|]. intros _.
  destruct (fold_max_spec l x) as (Hin & Hge & Hall).
  exists (fold_left Z.max l x). split; [reflexivity|]. split.
  - destruct Hin as [-> | Hin]; [left; reflexivity | right; exact Hin].
  - intros y [<- | Hy]; [exact Hge | apply Hall; exact Hy].
Qed.

Lemma py_min_spec (l : list Z) :
  l <> [] ->
  exists m, py_min l = Ok m /\ In m l /\ forall y, In y l -> m <= y.
Proof.
  destruct l as [|x l]; [intros H; contradiction H; reflexivity|]. intros _.
  destruct (fold_min_spec l x) as (Hin & Hge & Hall).
  exists (fold_left Z.min l x). split; [reflexivity|]. split.
  - destruct Hin as [-> | Hin]; [left; reflexivity | right; exact Hin].
  - intros y [<- | Hy]; [exact Hge | apply Hall; exact Hy].
Qed.

Lemma all_overlap_cons (a : Interval) (l : list Interval) :
  all_overlap (a :: l) = forallb (overlaps a) l && all_overlap l.
Proof.
  unfold all_overlap. simpl. rewrite forallb_app. f_equal.
  induction l as [|b l IH]; simpl; [reflexivity|]. rewrite IH. reflexivity.
Qed.

(** In a family of pairwise overlapping intervals, no interval starts after
    another one has ended. *)
Lemma all_overlap_cross (l : list Interval) :
  Forall (fun iv => left iv <= right iv) l ->
  all_overlap l = true ->
  forall a b, In a l -> In b l -> left a <= right b.
Proof.
  induction 1 as [|x l Hx Hl IH]; intros Hall a b Ha Hb; [destruct Ha|].
  rewrite all_overlap_cons, andb_true_iff in Hall. destruct Hall as [Hx' Hl'].
  rewrite forallb_forall in Hx'.
  destruct Ha as [Ha | Ha], Hb as [Hb | Hb]; subst.
  - exact Hx.
  - apply (overlaps_bounds a b). apply Hx'. exact Hb.
  - apply (overlaps_bounds b a). apply Hx'. exact Ha.
  - apply IH; assumption.
Qed.

Lemma children_ordered (fuel : nat) (periods : list Period) (dt : Z)
    (intervals : list Interval) :
  mapM (fun period => rollforward fuel period dt) periods = Ok intervals ->
  Forall (fun iv => left iv <= right iv) intervals.
Proof.
  intros H. apply mapM_Ok in H.
  induction H as [|p iv ps ivs Hp _ IH]; constructor; [|exact IH].
  apply rollforward_wf in Hp. apply Hp.
Qed.

Lemma in_map_left (iv : Interval) (l : list Interval) :
  In iv l -> In (left iv) (map left l).
Proof. apply in_map. Qed.

Lemma in_map_right (iv : Interval) (l : list Interval) :
  In iv l -> In (right iv) (map right l).
Proof. apply in_map. Qed.

Lemma All_rollforward_overlapping (fuel : nat) (periods : list Period) (dt : Z)
    (intervals : list Interval) :
  mapM (fun period => rollforward fuel period dt) periods = Ok intervals ->
  intervals <> [] ->
  all_overlap intervals = true ->
  exists start end_,
    py_max (map left intervals) = Ok start
    /\ py_min (map right intervals) = Ok end_
    /\ rollforward (S fuel) (All periods) dt
       = Ok (mkInterval start end_ closed_right)
    /\ In start (map left intervals)
    /\ In end_ (map right intervals)
    /\ (forall iv, In iv intervals -> left iv <= start /\ end_ <= right iv).
Proof.
  intros Hroll Hne Hall.
  assert (Hl : map left intervals <> [])
    by (destruct intervals; [contradiction Hne; reflexivity | discriminate]).
  assert (Hr : map right intervals <> [])
    by (destruct intervals; [contradiction Hne; reflexivity | discriminate]).
  destruct (py_max_spec Hl) as (start & Hmax & Hstart & Hup).
  destruct (py_min_spec Hr) as (end_ & Hmin & Hend & Hlow).
  exists start, end_. repeat split; try assumption.
  - simpl. rewrite Hroll. simpl. rewrite Hall.
    unfold get_overlapping. rewrite Hmax, Hmin. simpl.
    unfold Interval_new.
    apply in_map_iff in Hstart. destruct Hstart as (a & <- & Ha).
    apply in_map_iff in Hend. destruct Hend as (b & <- & Hb).
    pose proof (all_overlap_cross (children_ordered _ _ _ Hroll) Hall a b Ha Hb)
      as Hle.
    apply Z.ltb_ge in Hle. rewrite Hle. reflexivity.
  - apply Hup. apply in_map_left. assumption.
  - apply Hlow. apply in_map_right. assumption.
Qed.

Lemma All_rollforward_retry (fuel : nat) (periods : list Period) (dt : Z)
    (intervals : list Interval) :
  mapM (fun period => rollforward fuel period dt) periods = Ok intervals ->
  all_overlap intervals = false ->
  exists first_end,
    py_min (map right intervals) = Ok first_end
    /\ In first_end (map right intervals)
    /\ (forall iv, In iv intervals -> first_end <= right iv)
    /\ rollforward (S fuel) (All periods) dt
       = (seed <- Timestamp_add first_end datetime_resolution ;;
          rollforward fuel (All periods) seed).
Proof.
  intros Hroll Hall.
  assert (Hr : map right intervals <> [])
    by (destruct intervals; [discriminate Hall | discriminate]).
  destruct (py_min_spec Hr) as (first_end & Hmin & Hend & Hlow).
  exists first_end. repeat split; try assumption.
  - intros iv Hiv. apply Hlow. apply in_map_right. exact Hiv.
  - simpl. rewrite Hroll. simpl. rewrite Hall, Hmin. reflexivity.
Qed.

Lemma All_rollforward_reseeds (periods : list Period) (fuel fuel' : nat)
    (dt dt' : Z) :
  reseeds periods fuel dt fuel' dt' ->
  rollforward fuel (All periods) dt = rollforward fuel' (All periods) dt'.
Proof.
  induction 1 as [|fuel fuel' dt dt' first_end intervals Hroll Hall Hmin Hb _ IH];
    [reflexivity|].
  simpl. rewrite Hroll. simpl. rewrite Hall, Hmin. simpl.
  unfold Timestamp_add. rewrite Hb. simpl. exact IH.
Qed.

(** C7, as the code has it. [All.rollforward(t)] rolls every child forward
    from [t]. If the resulting intervals pairwise overlap, it returns the
    interval from the greatest left end to the least right end, which lies
    inside every child's interval. Otherwise it calls itself with the
    instant one [datetime.datetime.resolution] (one microsecond, a thousand
    resolution units of the instants) past the least right end; following
    these seeds to the first one at which the children's intervals all
    overlap gives the result. *)
Theorem All_rollforward_intersection (periods : list Period) :
  (forall (fuel : nat) (dt : Z) (intervals : list Interval),
      mapM (fun period => rollforward fuel period dt) periods = Ok intervals ->
      intervals <> [] ->
      all_overlap intervals = true ->
      exists start end_,
        py_max (map left intervals) = Ok start
        /\ py_min (map right intervals) = Ok end_
        /\ rollforward (S fuel) (All periods) dt
           = Ok (mkInterval start end_ closed_right)
        /\ In start (map left intervals)
        /\ In end_ (map right intervals)
        /\ (forall iv, In iv intervals -> left iv <= start /\ end_ <= right iv))
  /\ (forall (fuel : nat) (dt : Z) (intervals : list Interval),
         mapM (fun period => rollforward fuel period dt) periods = Ok intervals ->
         all_overlap intervals = false ->
         exists first_end,
           py_min (map right intervals) = Ok first_end
           /\ In first_end (map right intervals)
           /\ (forall iv, In iv intervals -> first_end <= right iv)
           /\ rollforward (S fuel) (All periods) dt
              = (seed <- Timestamp_add first_end datetime_resolution ;;
                 rollforward fuel (All periods) seed))
  /\ (forall (fuel fuel' : nat) (dt dt' : Z),
         reseeds periods fuel dt fuel' dt' ->
         rollforward fuel (All periods) dt
         = rollforward fuel' (All periods) dt')
  /\ (forall (fuel fuel' : nat) (dt dt' : Z) (intervals : list Interval),
         reseeds periods fuel dt (S fuel') dt' ->
         mapM (fun period => rollforward fuel' period dt') periods
         = Ok intervals ->
         intervals <> [] ->
         all_overlap intervals = true ->
         exists start end_,
           py_max (map left intervals) = Ok start
           /\ py_min (map right intervals) = Ok end_
           /\ rollforward fuel (All periods) dt
              = Ok (mkInterval start end_ closed_right)).
Proof.
  split; [intros; apply All_rollforward_overlapping; assumption|].
  split; [intros; apply All_rollforward_retry; assumption|].
  split; [intros; apply All_rollforward_reseeds; assumption|].
  intros fuel fuel' dt dt' intervals Hseeds Hroll Hne Hall.
  destruct (All_rollforward_overlapping _ _ _ Hroll Hne Hall)
    as (start & end_ & Hmax & Hmin & Hres & _).
  exists start, end_. repeat split; try assumption.
  rewrite (All_rollforward_reseeds Hseeds). exact Hres.
Qed.

Lemma All_rollforward_intersection_witness :
  (exists start end_,
      py_max (map left [mkInterval 2000 3000 closed_both;
                        mkInterval 2500 4000 closed_both]) = Ok start
      /\ py_min (map right [mkInterval 2000 3000 closed_both;
                            mkInterval 2500 4000 closed_both]) = Ok end_
      /\ rollforward 2 (All [Examples.two_slots; Examples.late_slot]) 1010
         = Ok (mkInterval start end_ closed_right)
      /\ In start (map left [mkInterval 2000 3000 closed_both;
                             mkInterval 2500 4000 closed_both])
      /\ In end_ (map right [mkInterval 2000 3000 closed_both;
                             mkInterval 2500 4000 closed_both])
      /\ (forall iv,
             In iv [mkInterval 2000 3000 closed_both;
                    mkInterval 2500 4000 closed_both] ->
             left iv <= start /\ end_ <= right iv))
  /\ (exists first_end,
         py_min (map right [mkInterval 5 10 closed_both;
                            mkInterval 2500 4000 closed_both]) = Ok first_end
         /\ In first_end (map right [mkInterval 5 10 closed_both;
                                     mkInterval 2500 4000 closed_both])
         /\ (forall iv,
                In iv [mkInterval 5 10 closed_both;
                       mkInterval 2500 4000 closed_both] ->
                first_end <= right iv)
         /\ rollforward 3 (All [Examples.two_slots; Examples.late_slot]) 5
            = (seed <- Timestamp_add first_end datetime_resolution ;;
               rollforward 2 (All [Examples.two_slots; Examples.late_slot])
                           seed))
  /\ rollforward 3 (All [Examples.two_slots; Examples.late_slot]) 5
     = rollforward 2 (All [Examples.two_slots; Examples.late_slot]) 1010
  /\ (exists start end_,
         py_max (map left [mkInterval 2000 3000 closed_both;
                           mkInterval 2500 4000 closed_both]) = Ok start
         /\ py_min (map right [mkInterval 2000 3000 closed_both;
                               mkInterval 2500 4000 closed_both]) = Ok end_
         /\ rollforward 3 (All [Examples.two_slots; Examples.late_slot]) 5
            = Ok (mkInterval start end_ closed_right)).
Proof.
  pose proof (All_rollforward_intersection
                [Examples.two_slots; Examples.late_slot])
    as (Hoverlap & Hretry & Hseeds & Hresult).
  assert (Hpath : reseeds [Examples.two_slots; Examples.late_slot] 3 5 2 1010).
  { apply reseeds_step
      with (first_end := 10)
           (intervals := [mkInterval 5 10 closed_both;
                          mkInterval 2500 4000 closed_both]);
      try reflexivity.
    apply reseeds_here. }
  split; [|split; [|split]].
  - apply (Hoverlap 1%nat 1010); [reflexivity | discriminate | reflexivity].
  - apply (Hretry 2%nat 5); reflexivity.
  - apply Hseeds. exact Hpath.
  - apply (Hresult 3%nat 1%nat 5 1010);
      [exact Hpath | reflexivity | discriminate | reflexivity].
Defined.

(** C7, as stated, fails. The children's intervals from 5 are [[5, 10]]
    and [[11, 20]]; one resolution unit past the least right end is 11,
    where both periods have an occurrence and the intersection is the
    interval from 11 to 20. The code goes on from 1010 and returns the
    interval from 2500 to 3000. Where the children's intervals [[0, 10]] and
    [[10, 20]] meet in the instant 10, the code's result from 10 to 10 does
    not hold that instant. *)
Lemma All_rollforward_skips_occurrence :
  rollforward 3 (All [Examples.slots_a; Examples.slots_b]) 5
  = Ok (mkInterval 2500 3000 closed_right)
  /\ PeriodMore.All_rollforward_as_specified
       3 [Examples.slots_a; Examples.slots_b] 5
     = Ok (mkInterval 11 20 closed_both)
  /\ rollforward 3 (All [Examples.slots_a; Examples.slots_b]) 5
     <> PeriodMore.All_rollforward_as_specified
          3 [Examples.slots_a; Examples.slots_b] 5
  /\ rollforward 3 (All [Examples.slots_a; Examples.slots_b]) 5
     = rollforward 2 (All [Examples.slots_a; Examples.slots_b])
                   (10 + datetime_resolution)
  /\ rollforward 3 (All [Examples.slots_a; Examples.slots_b]) 5
     <> rollforward 2 (All [Examples.slots_a; Examples.slots_b])
                    (10 + resolution)
  /\ rollforward 2 (All [Examples.until_ten; Examples.from_ten]) 0
     = Ok (mkInterval 10 10 closed_right)
  /\ Interval_contains (mkInterval 10 10 closed_right) 10 = false
  /\ PeriodMore.All_rollforward_as_specified
       2 [Examples.until_ten; Examples.from_ten] 0
     = Ok (mkInterval 10 10 closed_both)
  /\ Interval_contains (mkInterval 10 10 closed_both) 10 = true.
Proof.
  repeat split; try reflexivity; intros H; vm_compute in H; discriminate H.
Qed.

(** The result of that search. *)
Example All_rollforward_two_slots :
  rollforward 3 (All [Examples.two_slots; Examples.late_slot]) 5
  = Ok (mkInterval 2500 3000 closed_right).
Proof. reflexivity. Qed.

(** The step of the composite is a thousand times the step of [next]. *)
Remark datetime_resolution_in_units :
  datetime_resolution = 1000 * resolution.
Proof. reflexivity. Qed.

End AllRollforward.

(** ** Further properties of the roll operations *)

Section RollProperties.

Import Period.
Open Scope Z_scope.

(** Every interval returned by a roll, of whatever period, has its end
    points in order, and its [closed] attribute is the one of the period's
    class: ["both"] for a [TimeInterval] (also through [Offsetted]),
    ["right"] for everything else. *)
Theorem roll_results_well_formed (fuel : nat) (p : Period) (dt : Z) :
  (forall iv, rollforward fuel p dt = Ok iv ->
              left iv <= right iv /\ closed iv = closed_of p)
  /\ (forall iv, rollback fuel p dt = Ok iv ->
                 left iv <= right iv /\ closed iv = closed_of p).
Proof.
  split; intros iv H.
  - exact (rollforward_wf _ _ _ H).
  - exact (rollback_wf _ _ _ H).
Qed.

Lemma roll_results_well_formed_witness :
  left (mkInterval 10 (Examples.day - 1) closed_right)
  <= right (mkInterval 10 (Examples.day - 1) closed_right)
  /\ closed (mkInterval 10 (Examples.day - 1) closed_right)
     = closed_of Examples.daily.
Proof.
  apply (proj1 (roll_results_well_formed 1 Examples.daily 10)). reflexivity.
Defined.

Lemma TimeDelta_rollforward_left (future : Timedelta) (dt : Z) (iv : Interval) :
  TimeDelta_rollforward future dt = Ok iv ->
  left iv = dt /\ closed iv = closed_right.
Proof.
  unfold TimeDelta_rollforward. intros H. do 2 inv_bind H.
  apply Interval_new_Ok in H. destruct H as (l & r & Hl & _ & _ & ->).
  injection Hl as <-. split; reflexivity.
Qed.

Lemma TimeCycle_rollforward_left (start n offset : Z)
    (get_time_element replace : Z -> Z) (dt : Z) (iv : Interval) :
  TimeCycle_rollforward start n offset get_time_element replace dt = Ok iv ->
  left iv = dt /\ closed iv = closed_right.
Proof.
  unfold TimeCycle_rollforward. intros H. do 4 inv_bind H.
  apply Interval_new_Ok in H. destruct H as (l & r & Hl & _ & _ & ->).
  injection Hl as <-. split; reflexivity.
Qed.

Lemma StaticInterval_rollforward_outside (end_ dt : Z) (iv : Interval) :
  StaticInterval_rollforward end_ dt = Ok iv ->
  Interval_contains iv dt = false.
Proof.
  unfold StaticInterval_rollforward. intros H.
  destruct (end_ <? dt) eqn:E; apply Interval_new_Ok in H;
    destruct H as (l & r & Hl & Hr & _ & ->);
    injection Hl as <-; injection Hr as <-;
    unfold Interval_contains; simpl.
  - apply andb_false_iff. destruct (Z.ltb_spec Timestamp_max dt);
      [right; apply Z.leb_gt; assumption | left; reflexivity].
  - rewrite Z.ltb_irrefl. reflexivity.
Qed.

Lemma next_of_outside (fuel : nat) (p : Period) (dt : Z) :
  (forall iv, rollforward fuel p dt = Ok iv ->
              Interval_contains iv dt = false) ->
  next fuel p dt = rollforward fuel p dt.
Proof.
  intros H. unfold next. destruct (rollforward fuel p dt) as [iv|e] eqn:E.
  - simpl. rewrite (H iv eq_refl). reflexivity.
  - reflexivity.
Qed.

(** For a [TimeDelta], a [TimeCycle] and a [StaticInterval], [next] is
    [rollforward]: the interval rolled forward from an instant never holds
    that instant, so [next] never moves on to a later occurrence. *)
Theorem next_is_rollforward :
  (forall (fuel : nat) (past future : Timedelta) (reference : option Z)
          (dt : Z),
      next fuel (TimeDelta past future reference) dt
      = rollforward fuel (TimeDelta past future reference) dt)
  /\ (forall (fuel : nat) (start n offset : Z)
             (get_time_element replace : Z -> Z) (dt : Z),
         next fuel (TimeCycle start n offset get_time_element replace) dt
         = rollforward fuel
             (TimeCycle start n offset get_time_element replace) dt)
  /\ (forall (fuel : nat) (start end_ dt : Z),
         next fuel (StaticInterval start end_) dt
         = rollforward fuel (StaticInterval start end_) dt).
Proof.
  split; [|split]; intros; apply next_of_outside; intros iv H;
    (destruct fuel as [|fuel]; [discriminate H|]); simpl in H.
  - apply TimeDelta_rollforward_left in H. destruct H as [Hl Hc].
    rewrite <- Hl. apply left_not_in_right_closed. exact Hc.
  - apply TimeCycle_rollforward_left in H. destruct H as [Hl Hc].
    rewrite <- Hl. apply left_not_in_right_closed. exact Hc.
  - eapply StaticInterval_rollforward_outside. exact H.
Qed.

(** The outcomes of [next] and [prev], for every period: an interval is
    returned exactly when the first roll returns one that does not hold the
    instant, and it is that interval; an exception is either the first
    roll's own or the [AttributeError] of the re-roll. No interval of a
    second roll is ever returned. *)
Theorem next_prev_outcomes (fuel : nat) (p : Period) (dt : Z) :
  (forall iv, next fuel p dt = Ok iv <->
              rollforward fuel p dt = Ok iv
              /\ Interval_contains iv dt = false)
  /\ (forall e, next fuel p dt = Raise e <->
                rollforward fuel p dt = Raise e
                \/ (e = AttributeError
                    /\ exists iv, rollforward fuel p dt = Ok iv
                                  /\ Interval_contains iv dt = true))
  /\ (forall iv, prev fuel p dt = Ok iv <->
                 rollback fuel p dt = Ok iv
                 /\ Interval_contains iv dt = false)
  /\ (forall e, prev fuel p dt = Raise e <->
                rollback fuel p dt = Raise e
                \/ (e = AttributeError
                    /\ exists iv, rollback fuel p dt = Ok iv
                                  /\ Interval_contains iv dt = true)).
Proof.
  split; [|split; [|split]].
  - intros iv. split; [apply next_returns_first_roll|].
    intros [H C]. unfold next. rewrite H. simpl. rewrite C. reflexivity.
  - intros e. unfold next.
    destruct (rollforward fuel p dt) as [i|x]; simpl.
    + destruct (Interval_contains i dt) eqn:C; simpl; split.
      * intros H. injection H as <-. right.
        split; [reflexivity | exists i; split; [reflexivity | exact C]].
      * intros [H | [-> _]]; [discriminate H | reflexivity].
      * intros H. discriminate H.
      * intros [H | [_ (k & Hk & Hk')]]; [discriminate H|].
        injection Hk as <-. congruence.
    + split.
      * intros H. left. exact H.
      * intros [H | [_ (k & Hk & _)]]; [exact H | discriminate Hk].
  - intros iv. split; [apply prev_returns_first_roll|].
    intros [H C]. unfold prev. rewrite H. simpl. rewrite C. reflexivity.
  - intros e. unfold prev.
    destruct (rollback fuel p dt) as [i|x]; simpl.
    + destruct (Interval_contains i dt) eqn:C; simpl; split.
      * intros H. injection H as <-. right.
        split; [reflexivity | exists i; split; [reflexivity | exact C]].
      * intros [H | [-> _]]; [discriminate H | reflexivity].
      * intros H. discriminate H.
      * intros [H | [_ (k & Hk & Hk')]]; [discriminate H|].
        injection Hk as <-. congruence.
    + split.
      * intros H. left. exact H.
      * intros [H | [_ (k & Hk & _)]]; [exact H | discriminate Hk].
Qed.

Lemma next_prev_outcomes_witness :
  rollforward 1 (TimeDelta (Some 5) (Some 7) None) 100
  = Ok (mkInterval 100 107 closed_right)
  /\ Interval_contains (mkInterval 100 107 closed_right) 100 = false.
Proof.
  apply (proj1 (next_prev_outcomes 1 (TimeDelta (Some 5) (Some 7) None) 100)).
  reflexivity.
Defined.

End RollProperties.

(** ** Deltas, static intervals and offsets *)

Section LeafPeriods.

Import Period.
Open Scope Z_scope.

Lemma in_bounds_iff (t : Z) :
  in_bounds t = true <-> Timestamp_min <= t <= Timestamp_max.
Proof. unfold in_bounds. rewrite andb_true_iff, !Z.leb_le. reflexivity. Qed.

(** [prev] of a [TimeDelta] never returns an interval with an instant in
    it: when it returns, the interval is the empty [(dt, dt]] of a zero
    [past]; with a non-zero [past] inside the representable range it raises
    [AttributeError]. *)
Theorem TimeDelta_prev_empty_or_raises :
  (forall (fuel : nat) (past future : Timedelta) (reference : option Z)
          (dt : Z) (iv : Interval),
      prev fuel (TimeDelta past future reference) dt = Ok iv ->
      iv = mkInterval dt dt closed_right
      /\ past = Some 0
      /\ forall t, Interval_contains iv t = false)
  /\ (forall (fuel : nat) (past : Z) (future : Timedelta)
             (reference : option Z) (dt : Z),
         past <> 0 ->
         in_bounds (dt - Z.abs past) = true ->
         prev (S fuel) (TimeDelta (Some past) future reference) dt
         = Raise AttributeError).
Proof.
  split.
  - intros fuel past future reference dt iv H.
    apply prev_returns_first_roll in H. destruct H as [H C].
    destruct fuel as [|fuel]; [discriminate H|]. simpl in H.
    unfold TimeDelta_rollback in H. inv_bind H. rename a into span.
    destruct past as [past|]; [|discriminate Ha]. injection Ha as <-.
    inv_bind H.
    apply Interval_new_Ok in H. destruct H as (l & r & -> & Hr & Hle & ->).
    injection Hr as <-.
    unfold Timestamp_sub_td, Timestamp_add_td in Ha. simpl in Ha.
    inv_bind Ha. injection Ha as <-. unfold Timestamp_add in Ha0.
    destruct (in_bounds _); [|discriminate Ha0]. injection Ha0 as <-.
    unfold Interval_contains in C. simpl in C.
    rewrite Z.leb_refl, andb_true_r in C. apply Z.ltb_ge in C.
    assert (past = 0) by lia. subst past.
    replace (dt + - Z.abs 0) with dt by (simpl; lia).
    repeat split. intros t. unfold Interval_contains. simpl.
    apply andb_false_iff. destruct (Z.ltb_spec dt t);
      [right; apply Z.leb_gt; assumption | left; reflexivity].
  - intros fuel past future reference dt Hp Hb.
    apply prev_inside_raises with (iv := mkInterval (dt - Z.abs past) dt closed_right).
    + simpl. unfold TimeDelta_rollback, Timestamp_sub_td, Timestamp_add_td,
        Timestamp_add. simpl.
      replace (dt + - Z.abs past) with (dt - Z.abs past) by lia.
      rewrite Hb. simpl. unfold Interval_new.
      replace (dt <? dt - Z.abs past) with false by (symmetry; apply Z.ltb_ge; lia).
      reflexivity.
    + unfold Interval_contains. simpl. rewrite Z.leb_refl, andb_true_r.
      apply Z.ltb_lt. lia.
Qed.

Lemma TimeDelta_prev_empty_or_raises_witness :
  prev 1 (TimeDelta (Some 3600) (Some 0) None) 100000 = Raise AttributeError.
Proof.
  apply (proj2 TimeDelta_prev_empty_or_raises 0%nat 3600 (Some 0) None 100000).
  - discriminate.
  - reflexivity.
Defined.

(** The rolls of a [StaticInterval] never raise. Forward, an instant up to
    [end] gives the interval from the instant to [end], a later one the
    sentinel at [pd.Timestamp.max], which holds no instant; backward is the
    mirror image with [start] and [pd.Timestamp.min]. *)
Theorem StaticInterval_rolls (fuel : nat) (start end_ dt : Z) :
  (dt <= end_ ->
   rollforward (S fuel) (StaticInterval start end_) dt
   = Ok (mkInterval dt end_ closed_right))
  /\ (end_ < dt ->
      rollforward (S fuel) (StaticInterval start end_) dt
      = Ok (mkInterval Timestamp_max Timestamp_max closed_right))
  /\ (start <= dt ->
      rollback (S fuel) (StaticInterval start end_) dt
      = Ok (mkInterval start dt closed_right))
  /\ (dt < start ->
      rollback (S fuel) (StaticInterval start end_) dt
      = Ok (mkInterval Timestamp_min Timestamp_min closed_right))
  /\ (forall t,
         Interval_contains
           (mkInterval Timestamp_max Timestamp_max closed_right) t = false
         /\ Interval_contains
              (mkInterval Timestamp_min Timestamp_min closed_right) t = false).
Proof.
  simpl. unfold StaticInterval_rollforward, StaticInterval_rollback, Interval_new.
  split; [|split; [|split; [|split]]].
  - intros H. replace (end_ <? dt) with false by (symmetry; apply Z.ltb_ge; lia).
    reflexivity.
  - intros H. replace (end_ <? dt) with true by (symmetry; apply Z.ltb_lt; lia).
    reflexivity.
  - intros H. replace (start >? dt) with false
      by (symmetry; rewrite Z.gtb_ltb; apply Z.ltb_ge; lia).
    replace (dt <? start) with false by (symmetry; apply Z.ltb_ge; lia).
    reflexivity.
  - intros H. replace (start >? dt) with true
      by (symmetry; rewrite Z.gtb_ltb; apply Z.ltb_lt; lia).
    reflexivity.
  - intros t. unfold Interval_contains. simpl. split; apply andb_false_iff.
    + destruct (Z.ltb_spec Timestamp_max t);
        [right; apply Z.leb_gt; assumption | left; reflexivity].
    + destruct (Z.ltb_spec Timestamp_min t);
        [right; apply Z.leb_gt; assumption | left; reflexivity].
Qed.

Lemma StaticInterval_rolls_witness :
  rollforward 1 (StaticInterval 0 50) 7 = Ok (mkInterval 7 50 closed_right)
  /\ rollforward 1 (StaticInterval 0 50) 70
     = Ok (mkInterval Timestamp_max Timestamp_max closed_right)
  /\ rollback 1 (StaticInterval 0 50) 7 = Ok (mkInterval 0 7 closed_right)
  /\ rollback 1 (StaticInterval 10 50) 7
     = Ok (mkInterval Timestamp_min Timestamp_min closed_right).
Proof.
  split; [|split; [|split]].
  - apply (proj1 (StaticInterval_rolls 0 0 50 7)). lia.
  - apply (proj1 (proj2 (StaticInterval_rolls 0 0 50 70))). lia.
  - apply (proj1 (proj2 (proj2 (StaticInterval_rolls 0 0 50 7)))). lia.
  - apply (proj1 (proj2 (proj2 (proj2 (StaticInterval_rolls 0 10 50 7))))).
    lia.
Defined.

(** The membership test of a [StaticInterval], inherited from
    [TimePeriod], answers false for every instant, also for the instants
    between [start] and [end]; an interval made without bounds is the
    maximal one. *)
Theorem StaticInterval_contains_false :
  (forall (fuel : nat) (start end_ dt : Z),
      contains (S fuel) (StaticInterval start end_) dt = Ok false)
  /\ StaticInterval_init None None
     = StaticInterval Timestamp_min Timestamp_max
  /\ PeriodMore.is_max_interval Timestamp_min Timestamp_max = true
  /\ (forall start end_ : Z,
         PeriodMore.is_max_interval start end_ = true <->
         StaticInterval start end_ = StaticInterval_init None None).
Proof.
  split; [|split; [reflexivity | split; [reflexivity|]]].
  - intros fuel start end_ dt. simpl. unfold TimePeriod_contains. simpl.
    destruct (StaticInterval_rollforward end_ dt) as [iv|e] eqn:E.
    + simpl. rewrite (StaticInterval_rollforward_outside _ _ E). reflexivity.
    + exfalso. unfold StaticInterval_rollforward, Interval_new in E.
      destruct (end_ <? dt) eqn:C.
      * rewrite Z.ltb_irrefl in E. discriminate E.
      * discriminate E.
  - intros start end_. unfold PeriodMore.is_max_interval, StaticInterval_init.
    rewrite andb_true_iff, !Z.eqb_eq. split.
    + intros [-> ->]. reflexivity.
    + intros H. injection H as -> ->. split; reflexivity.
Qed.

Lemma StaticInterval_contains_false_witness :
  StaticInterval Timestamp_min Timestamp_max = StaticInterval_init None None.
Proof.
  apply (proj1 (proj2 (proj2 (proj2 StaticInterval_contains_false))
                  Timestamp_min Timestamp_max)).
  reflexivity.
Defined.

(** [Offsetted] never looks at its count [n], and over a [TimeDelta] it
    moves the window by the delta's [future] plus one nanosecond: the second
    roll starts at the instant after the end of the first. *)
Theorem Offsetted_rollforward :
  (forall (fuel : nat) (period : Period) (n m dt : Z),
      rollforward fuel (Offsetted period n) dt
      = rollforward fuel (Offsetted period m) dt
      /\ rollback fuel (Offsetted period n) dt
         = rollback fuel (Offsetted period m) dt)
  /\ (forall (fuel : nat) (past : Timedelta) (future : Z)
             (reference : option Z) (n dt : Z),
         in_bounds dt = true ->
         in_bounds (dt + Z.abs future + resolution) = true ->
         rollforward (S (S fuel))
           (Offsetted (TimeDelta past (Some future) reference) n) dt
         = rollforward (S fuel) (TimeDelta past (Some future) reference)
             (dt + Z.abs future + resolution)).
Proof.
  split.
  - intros fuel period n m dt. destruct fuel; split; reflexivity.
  - intros fuel past future reference n dt Hdt Hb.
    apply in_bounds_iff in Hdt. pose proof Hb as Hb'.
    apply in_bounds_iff in Hb'. unfold resolution in *.
    assert (Hmid : in_bounds (dt + Z.abs future) = true)
      by (apply in_bounds_iff; lia).
    cbn [rollforward]. unfold TimeDelta_rollforward at 1.
    unfold Timedelta_abs at 1. cbn [bind].
    unfold Timestamp_add_td, Timestamp_add.
    rewrite Hmid. cbn [bind]. unfold Interval_new.
    replace (dt + Z.abs future <? dt) with false
      by (symmetry; apply Z.ltb_ge; lia).
    cbn [bind right]. unfold resolution. rewrite Hb. reflexivity.
Qed.

Lemma Offsetted_rollforward_witness :
  rollforward 2 (Offsetted (TimeDelta (Some 0) (Some 7) None) 1) 100
  = rollforward 1 (TimeDelta (Some 0) (Some 7) None) (100 + Z.abs 7 + resolution).
Proof.
  apply (proj2 Offsetted_rollforward 0%nat (Some 0) 7 None 1 100); reflexivity.
Defined.

End LeafPeriods.

(** ** Further properties of the composites *)

Section Composites.

Import Period.
Open Scope Z_scope.

(** A composite without children can be constructed, but every roll and the
    membership test raise [ValueError]. *)
Theorem empty_composite_raises (fuel : nat) (dt : Z) :
  rollforward (S fuel) (All []) dt = Raise ValueError
  /\ rollback (S fuel) (All []) dt = Raise ValueError
  /\ rollforward (S fuel) (Any []) dt = Raise ValueError
  /\ rollback (S fuel) (Any []) dt = Raise ValueError
  /\ contains (S fuel) (All []) dt = Raise ValueError
  /\ contains (S fuel) (Any []) dt = Raise ValueError
  /\ (p <- All_init [] ;; rollforward (S fuel) p dt) = Raise ValueError
  /\ (p <- Any_init [] ;; rollforward (S fuel) p dt) = Raise ValueError.
Proof. repeat split; reflexivity. Qed.

(** [All] around a single period returns the end points of that period's
    interval, with [closed] turned to the default ["right"]; an exception
    of the child is handed on. *)
Theorem All_single_child (fuel : nat) (p : Period) (dt : Z) :
  (forall iv, rollforward fuel p dt = Ok iv ->
              rollforward (S fuel) (All [p]) dt
              = Ok (mkInterval (left iv) (right iv) closed_right))
  /\ (forall e, rollforward fuel p dt = Raise e ->
                rollforward (S fuel) (All [p]) dt = Raise e)
  /\ (forall iv, rollback fuel p dt = Ok iv ->
                 rollback (S fuel) (All [p]) dt
                 = Ok (mkInterval (left iv) (right iv) closed_right))
  /\ (forall e, rollback fuel p dt = Raise e ->
                rollback (S fuel) (All [p]) dt = Raise e).
Proof.
  split; [|split; [|split]].
  - intros iv H. pose proof (rollforward_wf _ _ _ H) as [Hle _].
    simpl. rewrite H. simpl. unfold get_overlapping, Interval_new. simpl.
    apply Z.ltb_ge in Hle. rewrite Hle. reflexivity.
  - intros e H. simpl. rewrite H. reflexivity.
  - intros iv H. pose proof (rollback_wf _ _ _ H) as [Hle _].
    simpl. rewrite H. simpl. unfold get_overlapping, Interval_new. simpl.
    apply Z.ltb_ge in Hle. rewrite Hle. reflexivity.
  - intros e H. simpl. rewrite H. reflexivity.
Qed.

Lemma All_single_child_witness :
  rollforward 2 (All [Examples.two_slots]) 5
  = Ok (mkInterval (left (mkInterval 5 10 closed_both))
                   (right (mkInterval 5 10 closed_both)) closed_right).
Proof.
  apply (proj1 (All_single_child 1 Examples.two_slots 5)). reflexivity.
Defined.

(** [All] of a [TimeDelta] with a zero [future] and another [TimeDelta]
    never returns an interval: the empty interval of the first child
    overlaps nothing, so every seed is followed by another one until the
    stack or the representable range is exhausted. *)
Theorem All_with_zero_delta_never_returns
    (past0 past1 future1 : Timedelta) (reference0 reference1 : option Z)
    (fuel : nat) :
  forall (dt : Z) (iv : Interval),
    rollforward fuel
      (All [TimeDelta past0 (Some 0) reference0;
            TimeDelta past1 future1 reference1]) dt
    <> Ok iv.
Proof.
  induction fuel as [|fuel IH]; intros dt iv H; [discriminate H|].
  cbn [rollforward] in H. inv_bind H.
  destruct fuel as [|fuel]; [discriminate Ha|].
  apply mapM_Ok in Ha.
  inversion Ha as [|d0 a0 ds ivs Ha0 Hrest]; subst.
  inversion Hrest as [|d1 a1 ds' ivs' Ha1 Hnil]; subst.
  inversion Hnil; subst. cbn [rollforward] in Ha0, Ha1.
  apply TimeDelta_rollforward_left in Ha1. destruct Ha1 as [Hl1 Hc1].
  assert (Hr0 : right a0 = dt /\ left a0 = dt /\ closed a0 = closed_right).
  { unfold TimeDelta_rollforward, Timestamp_add_td, Timedelta_abs, option_map,
      Timestamp_add in Ha0. simpl in Ha0.
    destruct (in_bounds (dt + 0)); [|discriminate Ha0]. simpl in Ha0.
    apply Interval_new_Ok in Ha0.
    destruct Ha0 as (l & r & Hl & Hr & _ & ->).
    injection Hl as <-. injection Hr as <-. simpl. repeat split. lia. }
  destruct Hr0 as (Hr0 & Hl0 & Hc0).
  assert (Hno : all_overlap [a0; a1] = false).
  { unfold all_overlap. simpl. unfold overlaps, closed_left_side, closed_right_side.
    rewrite Hc0, Hc1, Hl1, Hr0. simpl. rewrite Z.ltb_irrefl, andb_false_r.
    reflexivity. }
  rewrite Hno in H. do 2 inv_bind H.
  exact (IH _ _ H).
Qed.

(** For intervals with the default [closed] that pairwise overlap,
    [get_overlapping] returns their intersection: an instant is in the
    result exactly when it is in every one of them. *)
Theorem get_overlapping_is_intersection (times : list Interval) :
  times <> [] ->
  Forall (fun iv => left iv <= right iv /\ closed iv = closed_right) times ->
  all_overlap times = true ->
  exists iv,
    get_overlapping times = Ok iv
    /\ forall t, Interval_contains iv t = true
                 <-> (forall x, In x times -> Interval_contains x t = true).
Proof.
  intros Hne Hwf Hall.
  assert (Hl : map left times <> [])
    by (destruct times; [contradiction Hne; reflexivity | discriminate]).
  assert (Hr : map right times <> [])
    by (destruct times; [contradiction Hne; reflexivity | discriminate]).
  destruct (py_max_spec Hl) as (start & Hmax & Hstart & Hup).
  destruct (py_min_spec Hr) as (end_ & Hmin & Hend & Hlow).
  apply in_map_iff in Hstart. destruct Hstart as (a & Hla & Ha).
  apply in_map_iff in Hend. destruct Hend as (b & Hrb & Hb).
  assert (Hord : Forall (fun iv => left iv <= right iv) times)
    by (eapply Forall_impl; [|exact Hwf]; intros x [Hx _]; exact Hx).
  pose proof (all_overlap_cross Hord Hall a b Ha Hb) as Hle.
  rewrite Hla, Hrb in Hle.
  exists (mkInterval start end_ closed_right). split.
  - unfold get_overlapping. rewrite Hmax, Hmin. simpl. unfold Interval_new.
    apply Z.ltb_ge in Hle. rewrite Hle. reflexivity.
  - intros t. rewrite Interval_contains_right by reflexivity. simpl.
    rewrite Forall_forall in Hwf. split.
    + intros Ht x Hx. destruct (Hwf x Hx) as [_ Hc].
      apply Interval_contains_right; [exact Hc|].
      pose proof (Hup _ (in_map_left _ _ Hx)).
      pose proof (Hlow _ (in_map_right _ _ Hx)). lia.
    + intros Ht.
      pose proof (Ht a Ha) as Hta. pose proof (Ht b Hb) as Htb.
      apply Interval_contains_right in Hta; [|apply (Hwf a Ha)].
      apply Interval_contains_right in Htb; [|apply (Hwf b Hb)]. lia.
Qed.

Lemma get_overlapping_is_intersection_witness :
  exists iv,
    get_overlapping [mkInterval 0 50 closed_right; mkInterval 20 70 closed_right]
    = Ok iv
    /\ forall t, Interval_contains iv t = true
                 <-> (forall x,
                         In x [mkInterval 0 50 closed_right;
                               mkInterval 20 70 closed_right] ->
                         Interval_contains x t = true).
Proof.
  apply (@get_overlapping_is_intersection
           [mkInterval 0 50 closed_right; mkInterval 20 70 closed_right]).
  - discriminate.
  - repeat constructor; simpl; lia.
  - reflexivity.
Defined.

End Composites.

(** ** [All.rollback] and [Any.rollforward] *)

Section CompositeSearch.

Import Period.
Open Scope Z_scope.

Lemma children_ordered_back (fuel : nat) (periods : list Period) (dt : Z)
    (intervals : list Interval) :
  mapM (fun period => rollback fuel period dt) periods = Ok intervals ->
  Forall (fun iv => left iv <= right iv) intervals.
Proof.
  intros H. apply mapM_Ok in H.
  induction H as [|p iv ps ivs Hp _ IH]; constructor; [|exact IH].
  apply rollback_wf in Hp. apply Hp.
Qed.

Lemma All_rollback_reseeds (periods : list Period) (fuel fuel' : nat)
    (dt dt' : Z) :
  PeriodMore.reseeds_back periods fuel dt fuel' dt' ->
  rollback fuel (All periods) dt = rollback fuel' (All periods) dt'.
Proof.
  induction 1
    as [|fuel fuel' dt dt' last_start intervals Hroll Hall Hmax Hb _ IH];
    [reflexivity|].
  simpl. rewrite Hroll. simpl. rewrite Hall, Hmax. simpl.
  unfold Timestamp_sub, Timestamp_add.
  replace (last_start + - datetime_resolution)
    with (last_start - datetime_resolution) by lia.
  rewrite Hb. simpl. exact IH.
Qed.

(** [All.rollback(t)] rolls every child back from [t]. If the intervals
    pairwise overlap it returns the interval from the greatest left end to
    the least right end; otherwise it calls itself with the instant one
    [datetime.datetime.resolution] before the greatest left end, and
    following these seeds to one at which the children's intervals all
    overlap gives the result. *)
Theorem All_rollback_intersection (periods : list Period) :
  (forall (fuel : nat) (dt : Z) (intervals : list Interval),
      mapM (fun period => rollback fuel period dt) periods = Ok intervals ->
      intervals <> [] ->
      all_overlap intervals = true ->
      exists start end_,
        py_max (map left intervals) = Ok start
        /\ py_min (map right intervals) = Ok end_
        /\ rollback (S fuel) (All periods) dt
           = Ok (mkInterval start end_ closed_right)
        /\ (forall iv, In iv intervals -> left iv <= start /\ end_ <= right iv))
  /\ (forall (fuel : nat) (dt : Z) (intervals : list Interval),
         mapM (fun period => rollback fuel period dt) periods = Ok intervals ->
         all_overlap intervals = false ->
         exists last_start,
           py_max (map left intervals) = Ok last_start
           /\ In last_start (map left intervals)
           /\ (forall iv, In iv intervals -> left iv <= last_start)
           /\ rollback (S fuel) (All periods) dt
              = (seed <- Timestamp_sub last_start datetime_resolution ;;
                 rollback fuel (All periods) seed))
  /\ (forall (fuel fuel' : nat) (dt dt' : Z),
         PeriodMore.reseeds_back periods fuel dt fuel' dt' ->
         rollback fuel (All periods) dt = rollback fuel' (All periods) dt').
Proof.
  split; [|split].
  - intros fuel dt intervals Hroll Hne Hall.
    assert (Hl : map left intervals <> [])
      by (destruct intervals; [contradiction Hne; reflexivity | discriminate]).
    assert (Hr : map right intervals <> [])
      by (destruct intervals; [contradiction Hne; reflexivity | discriminate]).
    destruct (py_max_spec Hl) as (start & Hmax & Hstart & Hup).
    destruct (py_min_spec Hr) as (end_ & Hmin & Hend & Hlow).
    exists start, end_. repeat split; try assumption.
    + simpl. rewrite Hroll. simpl. rewrite Hall.
      unfold get_overlapping. rewrite Hmax, Hmin. simpl. unfold Interval_new.
      apply in_map_iff in Hstart. destruct Hstart as (a & <- & Ha).
      apply in_map_iff in Hend. destruct Hend as (b & <- & Hb).
      pose proof (all_overlap_cross (children_ordered_back _ _ _ Hroll)
                    Hall a b Ha Hb) as Hle.
      apply Z.ltb_ge in Hle. rewrite Hle. reflexivity.
    + apply Hup. apply in_map_left. assumption.
    + apply Hlow. apply in_map_right. assumption.
  - intros fuel dt intervals Hroll Hall.
    assert (Hl : map left intervals <> [])
      by (destruct intervals; [discriminate Hall | discriminate]).
    destruct (py_max_spec Hl) as (last_start & Hmax & Hin & Hup).
    exists last_start. repeat split; try assumption.
    + intros iv Hiv. apply Hup. apply in_map_left. exact Hiv.
    + simpl. rewrite Hroll. simpl. rewrite Hall, Hmax. reflexivity.
  - intros. apply All_rollback_reseeds. assumption.
Qed.

Lemma All_rollback_intersection_witness :
  (exists start end_,
      py_max (map left [mkInterval 0 10 closed_both;
                        mkInterval 0 5 closed_both]) = Ok start
      /\ py_min (map right [mkInterval 0 10 closed_both;
                            mkInterval 0 5 closed_both]) = Ok end_
      /\ rollback 2 (All [Examples.two_slots; Examples.two_slots_early]) 1000
         = Ok (mkInterval start end_ closed_right)
      /\ (forall iv,
             In iv [mkInterval 0 10 closed_both; mkInterval 0 5 closed_both] ->
             left iv <= start /\ end_ <= right iv))
  /\ (exists last_start,
         py_max (map left [mkInterval 2000 3000 closed_both;
                           mkInterval 0 5 closed_both]) = Ok last_start
         /\ In last_start (map left [mkInterval 2000 3000 closed_both;
                                     mkInterval 0 5 closed_both])
         /\ (forall iv,
                In iv [mkInterval 2000 3000 closed_both;
                       mkInterval 0 5 closed_both] ->
                left iv <= last_start)
         /\ rollback 3 (All [Examples.two_slots; Examples.two_slots_early]) 3500
            = (seed <- Timestamp_sub last_start datetime_resolution ;;
               rollback 2 (All [Examples.two_slots; Examples.two_slots_early])
                        seed))
  /\ rollback 3 (All [Examples.two_slots; Examples.two_slots_early]) 3500
     = rollback 2 (All [Examples.two_slots; Examples.two_slots_early]) 1000.
Proof.
  split; [|split].
  - apply (proj1 (All_rollback_intersection
                    [Examples.two_slots; Examples.two_slots_early]) 1%nat 1000);
      [reflexivity | discriminate | reflexivity].
  - apply (proj1 (proj2 (All_rollback_intersection
                    [Examples.two_slots; Examples.two_slots_early])) 2%nat 3500);
      reflexivity.
  - apply (proj2 (proj2 (All_rollback_intersection
                           [Examples.two_slots; Examples.two_slots_early]))).
    apply PeriodMore.reseeds_back_step
      with (last_start := 2000)
           (intervals := [mkInterval 2000 3000 closed_both;
                          mkInterval 0 5 closed_both]);
      try reflexivity.
    apply PeriodMore.reseeds_back_here.
Defined.

End CompositeSearch.

Section AnyRollforward.

Import Period.
Open Scope Z_scope.




(** [Any] around a [StaticInterval] without upper bound cannot roll
    forward, and around one without lower bound cannot roll back: the seed
    of the second roll is outside the representable range. *)
Theorem Any_unbounded_static_raises (fuel : nat) (start end_ dt : Z) :
  (dt <= Timestamp_max ->
   rollforward (S (S fuel)) (Any [StaticInterval start Timestamp_max]) dt
   = Raise OutOfBoundsDatetime)
  /\ (Timestamp_min <= dt ->
      rollback (S (S fuel)) (Any [StaticInterval Timestamp_min end_]) dt
      = Raise OutOfBoundsDatetime).
Proof.
  split; intros H.
  - cbn [rollforward mapM]. unfold StaticInterval_rollforward, Interval_new.
    replace (Timestamp_max <? dt) with false by (symmetry; apply Z.ltb_ge; lia).
    reflexivity.
  - cbn [rollback mapM]. unfold StaticInterval_rollback, Interval_new.
    replace (Timestamp_min >? dt) with false
      by (symmetry; rewrite Z.gtb_ltb; apply Z.ltb_ge; lia).
    replace (dt <? Timestamp_min) with false by (symmetry; apply Z.ltb_ge; lia).
    reflexivity.
Qed.

Lemma Any_unbounded_static_raises_witness :
  rollforward 2 (Any [StaticInterval 0 Timestamp_max]) 100
  = Raise OutOfBoundsDatetime.
Proof.
  apply (proj1 (Any_unbounded_static_raises 0 0 0 100)). discriminate.
Defined.

End AnyRollforward.

(** ** Equality of time deltas *)

Section DeltaEquality.

Import Period.
Open Scope Z_scope.

Lemma Timedelta_eqb_sym (a b : Timedelta) :
  PeriodMore.Timedelta_eqb a b = PeriodMore.Timedelta_eqb b a.
Proof. destruct a, b; simpl; try reflexivity. apply Z.eqb_sym. Qed.

(** Equality of time deltas compares [past] and [future] and nothing else:
    the reference plays no part, the comparison is symmetric, a delta is
    equal to itself exactly when neither attribute is not-a-time, which is
    the case for every delta the constructor returns, and the sign of the
    durations given to the constructor makes no difference. *)
Theorem TimeDelta_eq_properties :
  (forall (past future past' future' : Timedelta)
          (reference reference' : option Z),
      PeriodMore.TimeDelta_eq past future (TimeDelta past' future' reference)
      = PeriodMore.TimeDelta_eq past future
          (TimeDelta past' future' reference'))
  /\ (forall (past future past' future' : Timedelta)
             (reference reference' : option Z),
         PeriodMore.TimeDelta_eq past future
           (TimeDelta past' future' reference')
         = PeriodMore.TimeDelta_eq past' future'
             (TimeDelta past future reference))
  /\ (forall (past future : Timedelta) (reference : option Z),
         PeriodMore.TimeDelta_eq past future (TimeDelta past future reference)
         = true
         <-> past <> NaT /\ future <> NaT)
  /\ (forall past future : Z,
         TimeDelta_init (Some (Some past)) (Some (Some future))
         = TimeDelta_init (Some (Some (- past))) (Some (Some (- future))))
  /\ (forall (past future : option Timedelta) (span_past span_future : Timedelta)
             (reference : option Z),
         TimeDelta_init past future
         = Ok (TimeDelta span_past span_future reference) ->
         PeriodMore.TimeDelta_eq span_past span_future
           (TimeDelta span_past span_future reference) = true).
Proof.
  split; [reflexivity|]. split; [|split; [|split]].
  - intros. simpl.
    rewrite (Timedelta_eqb_sym past past'), (Timedelta_eqb_sym future future').
    reflexivity.
  - intros past future reference. simpl. rewrite andb_true_iff.
    destruct past as [p|], future as [f|]; simpl; rewrite ?Z.eqb_refl.
    + split; [intros _; split; discriminate | intros _; split; reflexivity].
    + split; [intros [_ H]; discriminate H
             | intros [_ H]; contradiction H; reflexivity].
    + split; [intros [H _]; discriminate H
             | intros [H _]; contradiction H; reflexivity].
    + split; [intros [H _]; discriminate H
             | intros [H _]; contradiction H; reflexivity].
  - intros past future. unfold TimeDelta_init. simpl. rewrite !Z.abs_opp.
    reflexivity.
  - intros past future span_past span_future reference H.
    apply TimeDelta_init_Ok in H. destruct H as (sp & sf & H & _).
    injection H as -> -> ->. simpl. rewrite !Z.eqb_refl. reflexivity.
Qed.

Lemma TimeDelta_eq_properties_witness :
  PeriodMore.TimeDelta_eq (Some 5) (Some 0) (TimeDelta (Some 5) (Some 0) None)
  = true
  /\ PeriodMore.TimeDelta_eq (Some 5) (Some 3) (TimeDelta (Some 5) (Some 3) None)
     = true.
Proof.
  split.
  - apply (proj1 (proj2 (proj2 TimeDelta_eq_properties)) (Some 5) (Some 0) None).
    split; discriminate.
  - apply (proj2 (proj2 (proj2 (proj2 TimeDelta_eq_properties)))
             (Some (Some (-5))) (Some (Some 3))).
    reflexivity.
Defined.

End DeltaEquality.

(** ** The registry of period classes *)

Section RegistryFacts.

Import Registry.

Lemma register_class_Ok (classes classes' : registry) (cls : pyclass) :
  register_class classes cls = Ok classes' ->
  exists g,
    classes' g = classes g ++ [cls]
    /\ (forall h, h <> g -> classes' h = classes h).
Proof.
  unfold register_class.
  destruct (Nat.ltb 1 _); [discriminate|].
  destruct (Nat.ltb _ 1); [discriminate|].
  intros H. injection H as <-.
  set (parent := if is_cycle cls then TimeCycle
                 else if is_interval cls then TimeInterval else TimeDelta).
  exists parent. split.
  - destruct parent; reflexivity.
  - intros h Hh. destruct h, parent; try reflexivity; contradiction Hh; reflexivity.
Qed.

(** Registering a class and looking its name up in the group of its
    abstract base finds a class of that name, compared without regard to
    case: the class itself when no class of that name was registered in the
    group before, the earlier one otherwise. The class is appended to the
    list of that group and the other groups are left as they were. *)
Theorem register_then_get_period (classes classes' : registry) (cls : pyclass) :
  register_class classes cls = Ok classes' ->
  exists g,
    ((is_cycle cls = true /\ g = TimeCycle)
     \/ (is_interval cls = true /\ g = TimeInterval)
     \/ (is_delta cls = true /\ g = TimeDelta))
    /\ Nat.b2n (is_cycle cls) + Nat.b2n (is_interval cls)
       + Nat.b2n (is_delta cls) = 1
    /\ classes' g = classes g ++ [cls]
    /\ (forall h, h <> g -> classes' h = classes h)
    /\ exists found,
         get_period classes' (name cls) g = Ok found
         /\ lower (name found) = lower (name cls)
         /\ (get_period classes (name cls) g = Raise ValueError ->
             found = cls)
         /\ (forall earlier, get_period classes (name cls) g = Ok earlier ->
                             found = earlier).
Proof.
  intros H.
  assert (Hparent :
    exists g,
      ((is_cycle cls = true /\ g = TimeCycle)
       \/ (is_interval cls = true /\ g = TimeInterval)
       \/ (is_delta cls = true /\ g = TimeDelta))
      /\ Nat.b2n (is_cycle cls) + Nat.b2n (is_interval cls)
         + Nat.b2n (is_delta cls) = 1
      /\ classes' g = classes g ++ [cls]
      /\ (forall h, h <> g -> classes' h = classes h)).
  { unfold register_class in H.
    destruct (is_cycle cls), (is_interval cls), (is_delta cls);
      try discriminate H; simpl in H; injection H as <-.
    - exists TimeCycle. split; [left; split; reflexivity|].
      split; [reflexivity|]. split; [reflexivity|].
      intros h Hh. destruct h; try reflexivity. contradiction Hh; reflexivity.
    - exists TimeInterval. split; [right; left; split; reflexivity|].
      split; [reflexivity|]. split; [reflexivity|].
      intros h Hh. destruct h; try reflexivity. contradiction Hh; reflexivity.
    - exists TimeDelta. split; [right; right; split; reflexivity|].
      split; [reflexivity|]. split; [reflexivity|].
      intros h Hh. destruct h; try reflexivity. contradiction Hh; reflexivity. }
  destruct Hparent as (g & Hbase & Hone & Hg & Hother).
  exists g. split; [exact Hbase|]. split; [exact Hone|].
  split; [exact Hg|]. split; [exact Hother|].
  unfold get_period. rewrite Hg, filter_app. simpl.
  rewrite String.eqb_refl.
  destruct (filter _ (classes g)) as [|c l] eqn:E; simpl.
  - exists cls. repeat split. intros earlier Hc. discriminate Hc.
  - exists c. repeat split.
    + assert (Hin : In c (filter
                (fun period => String.eqb (lower (name period))
                                          (lower (name cls))) (classes g)))
        by (rewrite E; left; reflexivity).
      apply filter_In in Hin. destruct Hin as [_ Hc].
      apply String.eqb_eq in Hc. exact Hc.
    + intros Hc. discriminate Hc.
    + intros earlier Hc. injection Hc as <-. reflexivity.
Qed.

Lemma register_then_get_period_witness :
  exists found,
    get_period
      (fun g => if group_eqb g TimeDelta
                then PERIOD_CLASSES g ++ [mkClass "Hours" false false true]
                else PERIOD_CLASSES g)
      "Hours" TimeDelta = Ok found
    /\ lower (name found) = "hours"%string.
Proof.
  destruct (@register_then_get_period PERIOD_CLASSES
              (fun g => if group_eqb g TimeDelta
                        then PERIOD_CLASSES g
                             ++ [mkClass "Hours" false false true]
                        else PERIOD_CLASSES g)
              (mkClass "Hours" false false true) eq_refl)
    as (g & [[Hc _] | [[Hi _] | [_ ->]]] & _ & _ & _ & found & Hget & Hname & _);
    [discriminate Hc | discriminate Hi |].
  exists found. split; [exact Hget | exact Hname].
Defined.

(** What [register_class] refuses and what [get_period] does not find. *)
Theorem registry_errors :
  (forall (classes : registry) (cls : pyclass),
      (exists classes', register_class classes cls = Ok classes')
      <-> Nat.b2n (is_cycle cls) + Nat.b2n (is_interval cls)
          + Nat.b2n (is_delta cls) = 1)
  /\ (forall (classes : registry) (cls : pyclass),
         Nat.b2n (is_cycle cls) + Nat.b2n (is_interval cls)
         + Nat.b2n (is_delta cls) <> 1 ->
         register_class classes cls = Raise TypeError)
  /\ (forall (name_ : string) (g : group),
         get_period PERIOD_CLASSES name_ g = Raise ValueError)
  /\ (forall (classes : registry) (name_ name' : string) (g : group),
         lower name_ = lower name' ->
         get_period classes name_ g = get_period classes name' g)
  /\ (forall (classes : registry) (name_ : string) (g : group) (found : pyclass),
         get_period classes name_ g = Ok found ->
         In found (classes g) /\ lower (name found) = lower name_).
Proof.
  split; [|split; [|split; [reflexivity | split]]].
  - intros classes cls. unfold register_class.
    destruct (is_cycle cls), (is_interval cls), (is_delta cls); simpl;
      split; try (intros [c H]; discriminate H); try (intros H; discriminate H);
      try reflexivity; intros _; eexists; reflexivity.
  - intros classes cls. unfold register_class.
    destruct (is_cycle cls), (is_interval cls), (is_delta cls); simpl;
      intros H; try reflexivity; contradiction H; reflexivity.
  - intros classes name_ name' g H. unfold get_period. rewrite H. reflexivity.
  - intros classes name_ g found. unfold get_period.
    destruct (filter _ (classes g)) as [|c l] eqn:E; [discriminate|].
    intros H. injection H as <-.
    assert (Hin : In c (filter
              (fun period => String.eqb (lower (name period)) (lower name_))
              (classes g)))
      by (rewrite E; left; reflexivity).
    apply filter_In in Hin. destruct Hin as [Hin Hc].
    apply String.eqb_eq in Hc. split; assumption.
Qed.

Lemma registry_errors_witness :
  register_class PERIOD_CLASSES (mkClass "Odd" true true false)
  = Raise TypeError
  /\ get_period PERIOD_CLASSES "daily" TimeCycle
     = get_period PERIOD_CLASSES "DAILY" TimeCycle.
Proof.
  split.
  - apply (proj1 (proj2 registry_errors)). discriminate.
  - apply (proj1 (proj2 (proj2 (proj2 registry_errors)))). reflexivity.
Defined.

End RegistryFacts.

(** ** Further properties of [observe] *)

Section ObserveProperties.

Import Condition.

Variable Ctx : Type.
Variable State : Type.

#[local] Abbreviation object := (Condition.object Ctx State).

(** A double negation observes as the condition itself, with the same
    effect on the world, although the tree is a different one. *)
Theorem observe_double_negation (x : object) (kwargs : Ctx) (s : State) :
  observe (Not_init (Not_init x)) kwargs s = observe x kwargs s.
Proof.
  simpl. destruct (observe x kwargs s) as [[b|e] s']; [|reflexivity].
  rewrite negb_involutive. reflexivity.
Qed.

(** De Morgan's laws hold for [observe], results, exceptions and effects on
    the world alike: the negation of an [All] observes as the [Any] of the
    negated children, and the negation of an [Any] as the [All] of the
    negated children. Children are observed in the same order and the same
    ones are skipped. *)
Theorem observe_de_morgan (l : list object) (kwargs : Ctx) (s : State) :
  observe (Not_init (All l)) kwargs s = observe (Any (map (@Not_init Ctx State) l)) kwargs s
  /\ observe (Not_init (Any l)) kwargs s
     = observe (All (map (@Not_init Ctx State) l)) kwargs s.
Proof.
  unfold Not_init. cbn [observe]. split; revert s.
  - induction l as [|c r IH]; intros s; [reflexivity|]. cbn [map All_loop Any_loop].
    cbn [observe]. destruct (observe c kwargs s) as [[[|]|e] s1]; cbn [negb];
      [apply IH | reflexivity | reflexivity].
  - induction l as [|c r IH]; intros s; [reflexivity|]. cbn [map All_loop Any_loop].
    cbn [observe]. destruct (observe c kwargs s) as [[[|]|e] s1]; cbn [negb];
      [reflexivity | apply IH | reflexivity].
Qed.

(** The flattening done by the constructors does not change what is
    observed: the node built by [All] (by [Any]) observes, in every context
    and world, as a node that kept its arguments nested would. *)
Theorem flattening_preserves_observe (l : list object) (kwargs : Ctx)
    (s : State) :
  observe (All_init l) kwargs s = observe (All l) kwargs s
  /\ observe (Any_init l) kwargs s = observe (Any l) kwargs s.
Proof. split; [apply observe_All_init | apply observe_Any_init]. Qed.



End ObserveProperties.

(** ** Constants, exceptions and the operators *)

Section ObserveMore.

Import Condition.

Variable Ctx : Type.
Variable State : Type.

#[local] Abbreviation object := (Condition.object Ctx State).

(** [AlwaysTrue] children of an [All] and [AlwaysFalse] children of an
    [Any] can be dropped without changing what is observed; in particular
    an [All] without children observes true and an [Any] without children
    false, neither touching the world. *)
Theorem constants_are_neutral (l : list object) (kwargs : Ctx) (s : State) :
  observe (All (filter (fun c => negb (ConditionMore.is_AlwaysTrue c)) l))
          kwargs s
  = observe (All l) kwargs s
  /\ observe (Any (filter (fun c => negb (ConditionMore.is_AlwaysFalse c)) l))
             kwargs s
     = observe (Any l) kwargs s
  /\ observe (All_init (@nil object)) kwargs s = (Ok true, s)
  /\ observe (Any_init (@nil object)) kwargs s = (Ok false, s).
Proof.
  split; [|split; [|split; reflexivity]]; rewrite !observe_All || rewrite !observe_Any;
    revert s; induction l as [|c r IH]; intros s; try reflexivity.
  - destruct c; cbn [filter ConditionMore.is_AlwaysTrue negb All_loop];
      try (cbn [observe]; apply IH);
      destruct (observe _ kwargs s) as [[[|]|e] s1]; try reflexivity; apply IH.
  - destruct c; cbn [filter ConditionMore.is_AlwaysFalse negb Any_loop];
      try (cbn [observe]; apply IH);
      destruct (observe _ kwargs s) as [[[|]|e] s1]; try reflexivity; apply IH.
Qed.

Lemma All_raise_first (kwargs : Ctx) (l : list object) :
  forall (s s2 : State) (e : exn),
    observe (All l) kwargs s = (Raise e, s2) ->
    exists pre c post s1,
      l = pre ++ c :: post
      /\ observed_all kwargs true pre s s1
      /\ observe c kwargs s1 = (Raise e, s2).
Proof.
  rewrite observe_All.
  induction l as [|c r IH]; intros s s2 e H; simpl in H; [discriminate|].
  destruct (observe c kwargs s) as [[[|]|x] s1] eqn:Hc; try discriminate H.
  - destruct (IH _ _ _ H) as (pre & d & post & s1' & -> & Hpre & Hd).
    exists (c :: pre), d, post, s1'. repeat split; [|exact Hd].
    econstructor; eassumption.
  - injection H as <- <-. exists [], c, r, s.
    repeat split; [constructor | exact Hc].
Qed.

Lemma Any_raise_first (kwargs : Ctx) (l : list object) :
  forall (s s2 : State) (e : exn),
    observe (Any l) kwargs s = (Raise e, s2) ->
    exists pre c post s1,
      l = pre ++ c :: post
      /\ observed_all kwargs false pre s s1
      /\ observe c kwargs s1 = (Raise e, s2).
Proof.
  rewrite observe_Any.
  induction l as [|c r IH]; intros s s2 e H; simpl in H; [discriminate|].
  destruct (observe c kwargs s) as [[[|]|x] s1] eqn:Hc; try discriminate H.
  - destruct (IH _ _ _ H) as (pre & d & post & s1' & -> & Hpre & Hd).
    exists (c :: pre), d, post, s1'. repeat split; [|exact Hd].
    econstructor; eassumption.
  - injection H as <- <-. exists [], c, r, s.
    repeat split; [constructor | exact Hc].
Qed.

(** An exception raised by a child leaves [observe] unchanged, with the
    world as the child left it, and no later child is observed; an
    exception of a composite is the exception of the first child that does
    not let the loop go on. An object that is not a condition raises
    [AttributeError] only when the loop reaches it. *)
Theorem exceptions_propagate (kwargs : Ctx) :
  (forall (pre : list object) (c : object) (post : list object)
          (s s1 s2 : State) (e : exn),
      observed_all kwargs true pre s s1 ->
      observe c kwargs s1 = (Raise e, s2) ->
      observe (All (pre ++ c :: post)) kwargs s = (Raise e, s2))
  /\ (forall (pre : list object) (c : object) (post : list object)
             (s s1 s2 : State) (e : exn),
         observed_all kwargs false pre s s1 ->
         observe c kwargs s1 = (Raise e, s2) ->
         observe (Any (pre ++ c :: post)) kwargs s = (Raise e, s2))
  /\ (forall (l : list object) (s s2 : State) (e : exn),
         observe (All l) kwargs s = (Raise e, s2) ->
         exists pre c post s1,
           l = pre ++ c :: post
           /\ observed_all kwargs true pre s s1
           /\ observe c kwargs s1 = (Raise e, s2))
  /\ (forall (l : list object) (s s2 : State) (e : exn),
         observe (Any l) kwargs s = (Raise e, s2) ->
         exists pre c post s1,
           l = pre ++ c :: post
           /\ observed_all kwargs false pre s s1
           /\ observe c kwargs s1 = (Raise e, s2))
  /\ (forall (c : object) (s s2 : State) (e : exn),
         observe c kwargs s = (Raise e, s2) <->
         observe (Not c) kwargs s = (Raise e, s2))
  /\ (forall (pre post : list object) (v : pyvalue) (s s1 : State),
         observed_all kwargs true pre s s1 ->
         observe (All (pre ++ Value v :: post)) kwargs s
         = (Raise AttributeError, s1)).
Proof.
  assert (HAll : forall (pre : list object) (c : object) (post : list object)
                        (s s1 s2 : State) (e : exn),
             observed_all kwargs true pre s s1 ->
             observe c kwargs s1 = (Raise e, s2) ->
             observe (All (pre ++ c :: post)) kwargs s = (Raise e, s2)).
  { intros pre c post s s1 s2 e Hpre Hc. rewrite observe_All.
    induction Hpre as [s|d rest s s' s'' Hd _ IH]; simpl.
    - rewrite Hc. reflexivity.
    - rewrite Hd. apply IH. exact Hc. }
  split; [exact HAll|]. split; [|split; [|split; [|split]]].
  - intros pre c post s s1 s2 e Hpre Hc. rewrite observe_Any.
    induction Hpre as [s|d rest s s' s'' Hd _ IH]; simpl.
    + rewrite Hc. reflexivity.
    + rewrite Hd. apply IH. exact Hc.
  - intros. apply All_raise_first. assumption.
  - intros. apply Any_raise_first. assumption.
  - intros c s s2 e. simpl.
    destruct (observe c kwargs s) as [[b|x] s1]; split; intros H;
      try discriminate H; exact H.
  - intros pre post v s s1 Hpre. eapply HAll; [exact Hpre | reflexivity].
Qed.

(** The operators [&] and [|] are associative on trees: both groupings of
    three conditions build the same flat node. Wrapping a composite in a
    composite of the same class gives the composite back, and composing two
    composites of the same class concatenates their children. *)
Theorem operators_associative (a b c : object) :
  and_ (and_ a b) c = and_ a (and_ b c)
  /\ or_ (or_ a b) c = or_ a (or_ b c)
  /\ (forall l : list object,
         All_init [All_init l] = All_init l
         /\ Any_init [Any_init l] = Any_init l)
  /\ (forall l l' : list object,
         and_ (All l) (All l') = All (l ++ l')
         /\ or_ (Any l) (Any l') = Any (l ++ l')).
Proof.
  unfold and_, or_, All_init, Any_init. cbn [flat_map].
  repeat split; intros; f_equal; rewrite ?app_nil_r, ?app_assoc; reflexivity.
Qed.

End ObserveMore.

Section ObserveExamples.

Import Condition.


Lemma exceptions_propagate_witness :
  observe (All ([Examples.probe "A" true]
                ++ Value (PyInt 3) :: [Examples.probe "B" true])) tt []
  = (Raise AttributeError, ["A"%string]).
Proof.
  apply (proj2 (proj2 (proj2 (proj2 (proj2
           (@exceptions_propagate unit (list string) tt)))))
           [Examples.probe "A" true] [Examples.probe "B" true] (PyInt 3) []).
  econstructor; [reflexivity | constructor].
Defined.

End ObserveExamples.
